(** * Healthcare payer knowledge base: the two chat front ends

    A shallow embedding of the client logic of

    - [frontend/app.js] (the plain DOM front end): [sendMessage],
      [addMessage], the typing indicator, [clearChat], [loadStats],
      [loadAlerts];
    - [frontend-react/src/components]: [InputBar.handleSubmit],
      [ChatInterface] ([handleSend], the [chatMutation] callbacks),
      [MessageBubble] and [SourceCard];
    - [frontend-react/src/lib/api.ts]: the JSON types.

    Modelling choices.
    - A JavaScript string is its sequence of UTF-16 code units.
    - A JavaScript number that arrives in a JSON body is finite; it is
      modelled by the rational it denotes ([Q]), so [*] is exact.  Where
      the rounding of the double product matters (the percentage and
      its band), module [Double] follows the score through IEEE
      doubles.
    - An optional field ([x?: T], or a field missing from a JSON
      object) is an [option]; [None] reads as [undefined].
    - The DOM is modelled by the children of the containers the code
      writes to; an [async] function is cut at its [await]: the part
      before it runs when the function is called, the rest when the
      awaited promise settles. *)

From Stdlib Require Import ZArith QArith Qround Qabs Lqa List Bool Lia String Ascii NArith.
From Stdlib Require Import SpecFloat.
Import ListNotations.

Local Open Scope Z_scope.

(* ------------------------------------------------------------------ *)
(** ** JavaScript strings *)

Definition jsstring := list N.

(** An ASCII literal of the source, as code units. *)
Definition lit (s : string) : jsstring :=
  map N_of_ascii (list_ascii_of_string s).

Definition jsstring_eqb (a b : jsstring) : bool :=
  if list_eq_dec N.eq_dec a b then true else false.

(** ECMAScript [WhiteSpace] and [LineTerminator] code points: what
    [String.prototype.trim] strips. *)
Definition isWhiteSpace (c : N) : bool :=
  ((9 <=? c) && (c <=? 13) || (c =? 32) || (c =? 160) || (c =? 5760)
   || (8192 <=? c) && (c <=? 8202) || (c =? 8232) || (c =? 8233)
   || (c =? 8239) || (c =? 8287) || (c =? 12288) || (c =? 65279))%N.

Fixpoint trimStart (s : jsstring) : jsstring :=
  match s with
  | [] => []
  | c :: r => if isWhiteSpace c then trimStart r else s
  end.

Definition trimEnd (s : jsstring) : jsstring := rev (trimStart (rev s)).

(** [s.trim()] *)
Definition trim (s : jsstring) : jsstring := trimEnd (trimStart s).

(** [ToBoolean] on a string: the empty string is the only falsy one. *)
Definition truthy_string (s : jsstring) : bool :=
  match s with [] => false | _ => true end.

(** [ToBoolean] on a possibly missing string field. *)
Definition truthy_opt_string (s : option jsstring) : bool :=
  match s with Some v => truthy_string v | None => false end.

(** [s || undefined], [s || null]: the filter values sent with a query. *)
Definition string_or_absent (s : option jsstring) : option jsstring :=
  if truthy_opt_string s then s else None.

(** Every code unit is white space (the empty string included). *)
Definition blank (s : jsstring) : Prop := Forall (fun c => isWhiteSpace c = true) s.

(* ------------------------------------------------------------------ *)
(** ** JavaScript numbers *)

(** [ToBoolean] on a possibly missing number: [undefined] and [0] are
    falsy ([NaN] cannot come out of a JSON body). *)
Definition truthy_number (v : option Q) : bool :=
  match v with
  | Some q => negb (Qeq_bool q 0)
  | None => false
  end.

(** [a || b] on two possibly missing numbers. *)
Definition js_or (a b : option Q) : option Q :=
  if truthy_number a then a else b.

(** [a || d] where [d] is a number: the result is a number. *)
Definition js_or_number (a : option Q) (d : Q) : Q :=
  match a with
  | Some q => if Qeq_bool q 0 then d else q
  | None => d
  end.

(** [Math.round]: the nearest integer, a tie going up. *)
Definition Math_round (x : Q) : Z := Qfloor (x + (1 # 2)).

(** [x.toFixed(0)], read back as an integer: the nearest integer, a tie
    going away from zero (the sign is split off first, so ["-0"] reads
    as 0).  Scores times 100 stay far below the 10^21 from which
    [toFixed] switches to exponent notation. *)
Definition toFixed0 (x : Q) : Z :=
  if Qle_bool 0 x then Qfloor (x + (1 # 2)) else - Qfloor (- x + (1 # 2)).

(* ------------------------------------------------------------------ *)
(** ** [lib/api.ts]: the JSON types *)

Record Source := {
  rule_id : Z;
  payer_name : jsstring;
  rule_type : jsstring;
  title : option jsstring;
  content_excerpt : option jsstring;
  effective_date : option jsstring;
  source_url : option jsstring;
  similarity_score : option Q;
  combined_score : option Q
}.

Record ChatQueryRequest := {
  query : jsstring;
  session_id : option jsstring;
  req_payer_name : option jsstring;
  req_rule_type : option jsstring;
  include_sources : bool
}.

(** The body of a [/chat/query] answer once parsed.  The fields are
    optional here because the clients never validate the body: an error
    body such as [{"detail": ...}] has none of them. *)
Record ChatQueryResponse := {
  response : option jsstring;
  sources : option (list Source);
  resp_session_id : option jsstring
}.

(** [source.combined_score || source.similarity_score || 0]: the
    expression both front ends compute the shown score from. *)
Definition displayScore (s : Source) : Q :=
  js_or_number (js_or (combined_score s) (similarity_score s)) 0.

(** A list of numbers is in non-increasing order. *)
Fixpoint is_descending (l : list Q) : bool :=
  match l with
  | [] => true
  | x :: r =>
      match r with
      | [] => true
      | y :: _ => Qle_bool y x && is_descending r
      end
  end.

(* ------------------------------------------------------------------ *)
(** ** [SourceCard.tsx] and [MessageBubble.tsx] *)

Module SourceCard.

(** [const matchScore = Math.round((... || ... || 0) * 100)] *)
Definition matchScore (source : Source) : Z :=
  Math_round (displayScore source * 100).

(** The colour classes of the score badge. *)
Definition badgeClass (matchScore : Z) : string :=
  if 80 <=? matchScore then "bg-green-100 text-green-700"
  else if 60 <=? matchScore then "bg-yellow-100 text-yellow-700"
  else "bg-gray-100 text-gray-700".

(** What one card shows when collapsed. *)
Record card := {
  card_source : Source;
  card_number : Z;          (* [index + 1] *)
  card_percent : Z;         (* [{matchScore}% match] *)
  card_badge : string
}.

Definition SourceCard (source : Source) (index : nat) : card :=
  {| card_source := source;
     card_number := Z.of_nat index + 1;
     card_percent := matchScore source;
     card_badge := badgeClass (matchScore source) |}.

End SourceCard.

Module MessageBubble.

(** [sources.map((source, index) => <SourceCard ... />)] *)
Fixpoint mapi_from (index : nat) (sources : list Source) : list SourceCard.card :=
  match sources with
  | [] => []
  | source :: rest => SourceCard.SourceCard source index :: mapi_from (S index) rest
  end.

(** [{sources && sources.length > 0 && (...)}]: the cards of a bubble,
    in the order they are laid out. *)
Definition sourceCards (sources : option (list Source)) : list SourceCard.card :=
  match sources with
  | Some l => mapi_from 0 l
  | None => []
  end.

End MessageBubble.

(* ------------------------------------------------------------------ *)
(** ** What a settled [fetch] hands to the code *)

(** [fetch] rejects only when no answer arrives (network failure,
    timeout); an answer with any status resolves it, and
    [response.json()] then rejects when the body is not JSON. *)
Inductive fetch_outcome (D : Type) : Type :=
| rejected
| not_json (status : Z)
| json (status : Z) (data : D).
Arguments rejected {D}.
Arguments not_json {D} status.
Arguments json {D} status data.

(** A parsed chat body: [null], or a value whose fields can be read. *)
Inductive chat_body : Type :=
| body_null
| body_object (d : ChatQueryResponse).

Inductive error : Type :=
| TypeError
| NetworkError
| SyntaxError
| AxiosError (status : Z).

(** The text both front ends show when a query fails. *)
Definition apology : jsstring :=
  lit "Sorry, I encountered an error. Please try again.".

(* ------------------------------------------------------------------ *)
(** ** [frontend/app.js] *)

Module Legacy.

Inductive message_type : Type := user | bot.

(** One [source-item] of a message. *)
Record source_item := {
  item_source : Source;
  item_number : Z;              (* [index + 1] *)
  item_payer : jsstring;
  item_percent : Z;             (* [score.toFixed(0)] *)
  item_rule_type : jsstring
}.

(** The children of [#chatMessages].  A message keeps the value that
    [addMessage] was given as [content]. *)
Inductive node : Type :=
| welcome_message
| message (type : message_type) (content : option jsstring) (items : list source_item)
| typingIndicator.

Inductive stats_html : Type :=
| stats_markup (html : jsstring)
| stat_cards (total_payers total_rules unread_alerts : option Z).

Record Alert := {
  alert_id : Z;
  alert_title : jsstring;
  alert_message : jsstring;
  alert_severity : jsstring
}.

Inductive alerts_html : Type :=
| alerts_markup (html : jsstring)
| alerts_loading (text : string)           (* [<div class="loading">text</div>] *)
| alert_items (items : list Alert).

Inductive log_entry : Type :=
| console_error (label : string) (e : error).

Record state := {
  sessionId : option jsstring;             (* [let sessionId = null] *)
  chatInput : jsstring;
  payerFilter : jsstring;
  ruleTypeFilter : jsstring;
  chatMessages : list node;
  statsGrid : stats_html;
  alertsList : alerts_html;
  console : list log_entry;
  sent : list ChatQueryRequest;            (* every [/chat/query] call, oldest first *)
  pending : list nat                       (* positions in [sent] not settled yet *)
}.

Definition set_sessionId (v : option jsstring) (st : state) : state :=
  {| sessionId := v; chatInput := chatInput st; payerFilter := payerFilter st;
     ruleTypeFilter := ruleTypeFilter st; chatMessages := chatMessages st;
     statsGrid := statsGrid st; alertsList := alertsList st;
     console := console st; sent := sent st; pending := pending st |}.

Definition set_chatInput (v : jsstring) (st : state) : state :=
  {| sessionId := sessionId st; chatInput := v; payerFilter := payerFilter st;
     ruleTypeFilter := ruleTypeFilter st; chatMessages := chatMessages st;
     statsGrid := statsGrid st; alertsList := alertsList st;
     console := console st; sent := sent st; pending := pending st |}.

Definition set_payerFilter (v : jsstring) (st : state) : state :=
  {| sessionId := sessionId st; chatInput := chatInput st; payerFilter := v;
     ruleTypeFilter := ruleTypeFilter st; chatMessages := chatMessages st;
     statsGrid := statsGrid st; alertsList := alertsList st;
     console := console st; sent := sent st; pending := pending st |}.

Definition set_chatMessages (v : list node) (st : state) : state :=
  {| sessionId := sessionId st; chatInput := chatInput st; payerFilter := payerFilter st;
     ruleTypeFilter := ruleTypeFilter st; chatMessages := v;
     statsGrid := statsGrid st; alertsList := alertsList st;
     console := console st; sent := sent st; pending := pending st |}.

Definition set_statsGrid (v : stats_html) (st : state) : state :=
  {| sessionId := sessionId st; chatInput := chatInput st; payerFilter := payerFilter st;
     ruleTypeFilter := ruleTypeFilter st; chatMessages := chatMessages st;
     statsGrid := v; alertsList := alertsList st;
     console := console st; sent := sent st; pending := pending st |}.

Definition set_alertsList (v : alerts_html) (st : state) : state :=
  {| sessionId := sessionId st; chatInput := chatInput st; payerFilter := payerFilter st;
     ruleTypeFilter := ruleTypeFilter st; chatMessages := chatMessages st;
     statsGrid := statsGrid st; alertsList := v;
     console := console st; sent := sent st; pending := pending st |}.

Definition set_console (v : list log_entry) (st : state) : state :=
  {| sessionId := sessionId st; chatInput := chatInput st; payerFilter := payerFilter st;
     ruleTypeFilter := ruleTypeFilter st; chatMessages := chatMessages st;
     statsGrid := statsGrid st; alertsList := alertsList st;
     console := v; sent := sent st; pending := pending st |}.

Definition set_network (s : list ChatQueryRequest) (p : list nat) (st : state) : state :=
  {| sessionId := sessionId st; chatInput := chatInput st; payerFilter := payerFilter st;
     ruleTypeFilter := ruleTypeFilter st; chatMessages := chatMessages st;
     statsGrid := statsGrid st; alertsList := alertsList st;
     console := console st; sent := s; pending := p |}.

(** *** A statement either completes or throws; the state it reached
    is kept in both cases. *)

Inductive completion (A : Type) : Type :=
| normal (a : A)
| throw (e : error).
Arguments normal {A} a.
Arguments throw {A} e.

Definition js (A : Type) : Type := state -> completion A * state.

Definition ret {A} (a : A) : js A := fun st => (normal a, st).

Definition raise {A} (e : error) : js A := fun st => (throw e, st).

Definition bind {A B} (m : js A) (k : A -> js B) : js B :=
  fun st =>
    match m st with
    | (normal a, st') => k a st'
    | (throw e, st') => (throw e, st')
    end.

(** [try { body } catch (error) { handler(error) }] *)
Definition try_catch {A} (body : js A) (handler : error -> js A) : js A :=
  fun st =>
    match body st with
    | (normal a, st') => (normal a, st')
    | (throw e, st') => handler e st'
    end.

(** A statement that only updates the page. *)
Definition update (f : state -> state) : js unit := fun st => (normal tt, f st).

Definition when (b : bool) (m : js unit) : js unit := if b then m else ret tt.

Declare Scope js_scope.
Delimit Scope js_scope with js.
Notation "x <- m ;; k" := (bind m (fun x => k))
  (at level 61, m at next level, right associativity) : js_scope.
Notation "m ;; k" := (bind m (fun _ => k))
  (at level 61, right associativity) : js_scope.
Local Open Scope js_scope.

(** [await fetch(...)] followed by [await response.json()], at the
    moment the request has settled. *)
Definition await_json {D} (o : fetch_outcome D) : js D :=
  match o with
  | rejected => raise NetworkError
  | not_json _ => raise SyntaxError
  | json _ data => ret data
  end.

(** Reading a property of [data]: a [TypeError] on [null]. *)
Definition fields_of (data : chat_body) : js ChatQueryResponse :=
  match data with
  | body_null => raise TypeError
  | body_object d => ret d
  end.

(** *** [addMessage] *)

Definition is_welcome (n : node) : bool :=
  match n with welcome_message => true | _ => false end.

Definition is_typing (n : node) : bool :=
  match n with typingIndicator => true | _ => false end.

(** [querySelector(...)] / [getElementById(...)] then [.remove()]:
    the first match in document order goes, if there is one. *)
Fixpoint remove_first (p : node -> bool) (l : list node) : list node :=
  match l with
  | [] => []
  | n :: r => if p n then r else n :: remove_first p r
  end.

(** The body of [sources.forEach((source, index) => ...)]. *)
Definition source_item_of (source : Source) (index : nat) : source_item :=
  let score := (displayScore source * 100)%Q in
  {| item_source := source;
     item_number := Z.of_nat index + 1;
     item_payer := payer_name source;
     item_percent := toFixed0 score;
     item_rule_type := rule_type source |}.

Fixpoint forEach_from (index : nat) (sources : list Source) : list source_item :=
  match sources with
  | [] => []
  | source :: rest => source_item_of source index :: forEach_from (S index) rest
  end.

(** [if (sources && sources.length > 0) { ... }] *)
Definition message_sources (sources : option (list Source)) : list source_item :=
  match sources with
  | Some l => forEach_from 0 l
  | None => []
  end.

Definition addMessage (content : option jsstring) (type : message_type)
    (sources : option (list Source)) : js unit :=
  update (fun st =>
    set_chatMessages
      (remove_first is_welcome (chatMessages st)
         ++ [message type content (message_sources sources)]) st).

Definition showTypingIndicator : js unit :=
  update (fun st => set_chatMessages (chatMessages st ++ [typingIndicator]) st).

Definition removeTypingIndicator : js unit :=
  update (fun st => set_chatMessages (remove_first is_typing (chatMessages st)) st).

Definition log_error (label : string) (e : error) : js unit :=
  update (fun st => set_console (console st ++ [console_error label e]) st).

(** *** [sendMessage] *)

(** [fetch(`${API_BASE_URL}/chat/query`, ...)]: the call is logged and
    stays pending until it settles. *)
Definition fetch_chat (req : ChatQueryRequest) : js unit :=
  update (fun st =>
    set_network (sent st ++ [req]) (pending st ++ [List.length (sent st)]) st).

(** From the call to the [await fetch]. *)
Definition sendMessage : js unit :=
  fun st =>
    let q := trim (chatInput st) in
    if negb (truthy_string q) then ret tt st
    else
      let payer := payerFilter st in
      let ruleType := ruleTypeFilter st in
      (update (set_chatInput []) ;;
       addMessage (Some q) user None ;;
       showTypingIndicator ;;
       fetch_chat {| query := q;
                     session_id := sessionId st;
                     req_payer_name := string_or_absent (Some payer);
                     req_rule_type := string_or_absent (Some ruleType);
                     include_sources := true |}) st.

(** From the [await fetch] to the end, once the request has settled. *)
Definition sendMessage_resume (o : fetch_outcome chat_body) : js unit :=
  try_catch
    (data <- await_json o ;;
     removeTypingIndicator ;;
     d <- fields_of data ;;
     addMessage (response d) bot (sources d) ;;
     when (truthy_opt_string (resp_session_id d))
          (update (set_sessionId (resp_session_id d))))
    (fun e =>
       log_error "Error sending message:" e ;;
       removeTypingIndicator ;;
       addMessage (Some apology) bot None).

(** *** [clearChat] *)

(** ['session_' + Date.now() + '_' + Math.random().toString(36).substr(2, 9)],
    given the digits of the clock and the random suffix. *)
Definition generateSessionId (now suffix : jsstring) : jsstring :=
  lit "session_" ++ now ++ lit "_" ++ suffix.

Definition clearChat (now suffix : jsstring) : js unit :=
  update (fun st =>
    set_sessionId (Some (generateSessionId now suffix))
      (set_chatMessages [welcome_message] st)).

(** [filterByPayer] *)
Definition filterByPayer (payerName : jsstring) : js unit :=
  update (set_payerFilter payerName).

(** *** The dashboard: [loadStats] and [loadAlerts] *)

Inductive stats_body : Type :=
| stats_null
| stats_object (total_payers total_rules unread_alerts : option Z).

(** The parsed body of [/alerts]: an array, or a value that has no
    [map] ([null], an error object). *)
Inductive alerts_body : Type :=
| alerts_array (alerts : list Alert)
| alerts_other.

Definition loadStats (o : fetch_outcome stats_body) : js unit :=
  try_catch
    (data <- await_json o ;;
     match data with
     | stats_null => raise TypeError
     | stats_object tp tr ua => update (set_statsGrid (stat_cards tp tr ua))
     end)
    (fun e => log_error "Error loading stats:" e).

Definition loadAlerts (o : fetch_outcome alerts_body) : js unit :=
  try_catch
    (alerts <- await_json o ;;
     match alerts with
     | alerts_other => raise TypeError
     | alerts_array [] => update (set_alertsList (alerts_loading "No new alerts"))
     | alerts_array l => update (set_alertsList (alert_items l))
     end)
    (fun e =>
       log_error "Error loading alerts:" e ;;
       update (set_alertsList (alerts_loading "Error loading alerts"))).

(** *** The page as a transition system *)

Inductive event : Type :=
| type_input (text : jsstring)
| choose_filters (payer ruleType : jsstring)
| click_send
| chat_settled (k : nat) (o : fetch_outcome chat_body)
| click_clear (now suffix : jsstring)
| stats_settled (o : fetch_outcome stats_body)
| alerts_settled (o : fetch_outcome alerts_body).

Definition is_pending (k : nat) (st : state) : bool :=
  existsb (Nat.eqb k) (pending st).

Definition settle (k : nat) : js unit :=
  update (fun st =>
    set_network (sent st) (filter (fun j => negb (Nat.eqb k j)) (pending st)) st).

(** What the handler of an event runs. *)
Definition handler (e : event) : js unit :=
  match e with
  | type_input text => update (set_chatInput text)
  | choose_filters payer ruleType =>
      update (fun st =>
        {| sessionId := sessionId st; chatInput := chatInput st; payerFilter := payer;
           ruleTypeFilter := ruleType; chatMessages := chatMessages st;
           statsGrid := statsGrid st; alertsList := alertsList st;
           console := console st; sent := sent st; pending := pending st |})
  | click_send => sendMessage
  | chat_settled k o =>
      fun st => if is_pending k st then (settle k ;; sendMessage_resume o) st else ret tt st
  | click_clear now suffix => clearChat now suffix
  | stats_settled o => loadStats o
  | alerts_settled o => loadAlerts o
  end.

Definition run_event (st : state) (e : event) : completion unit * state := handler e st.

(** A run of the page; an exception that leaves a handler is kept in
    the second component (the list of uncaught errors). *)
Fixpoint run (events : list event) (st : state) (uncaught : list error)
    : state * list error :=
  match events with
  | [] => (st, uncaught)
  | e :: rest =>
      match run_event st e with
      | (normal _, st') => run rest st' uncaught
      | (throw err, st') => run rest st' (uncaught ++ [err])
      end
  end.

(** The page once [initializeApp] is through: the welcome text, no
    message, nothing sent. *)
Definition loaded (sid : option jsstring) (stats : stats_html) (alerts : alerts_html) : state :=
  {| sessionId := sid; chatInput := []; payerFilter := []; ruleTypeFilter := [];
     chatMessages := [welcome_message]; statsGrid := stats; alertsList := alerts;
     console := []; sent := []; pending := [] |}.

End Legacy.

(* ------------------------------------------------------------------ *)
(** ** [frontend-react]: [InputBar] and [ChatInterface] *)

Module React.

Inductive role : Type := user | assistant.

(** [interface Message]; [id] is a prefix followed by [Date.now()]. *)
Record Message := {
  id : string * Z;
  content : option jsstring;
  type : role;
  msg_sources : option (list Source);
  timestamp : Z
}.

(** [interface ChatInterfaceProps] *)
Record props := {
  payerFilter : option jsstring;
  ruleTypeFilter : option jsstring
}.

(** [App.tsx] renders [<ChatInterface />]. *)
Definition App_props : props := {| payerFilter := None; ruleTypeFilter := None |}.

Inductive log_entry : Type :=
| console_error (label : string) (e : error).

Record state := {
  messages : list Message;                 (* [useState<Message[]>([])] *)
  sessionId : jsstring;                    (* [const [sessionId] = useState(...)] *)
  input : jsstring;                        (* [InputBar]'s [useState('')] *)
  isPending : bool;                        (* [chatMutation.isPending] *)
  console : list log_entry;
  sent : list ChatQueryRequest;            (* every [chatApi.query] call, oldest first *)
  pending : list nat                       (* positions in [sent] not settled yet *)
}.

Definition setMessages (f : list Message -> list Message) (st : state) : state :=
  {| messages := f (messages st); sessionId := sessionId st; input := input st;
     isPending := isPending st; console := console st;
     sent := sent st; pending := pending st |}.

Definition setInput (v : jsstring) (st : state) : state :=
  {| messages := messages st; sessionId := sessionId st; input := v;
     isPending := isPending st; console := console st;
     sent := sent st; pending := pending st |}.

Definition log_error (label : string) (e : error) (st : state) : state :=
  {| messages := messages st; sessionId := sessionId st; input := input st;
     isPending := isPending st; console := console st ++ [console_error label e];
     sent := sent st; pending := pending st |}.

(** [mutationFn]: the request built from the query. *)
Definition mutationFn (p : props) (st : state) (q : jsstring) : ChatQueryRequest :=
  {| query := q;
     session_id := Some (sessionId st);
     req_payer_name := string_or_absent (payerFilter p);
     req_rule_type := string_or_absent (ruleTypeFilter p);
     include_sources := true |}.

(** [chatMutation.mutate(message)]: the request leaves and the
    mutation is pending. *)
Definition mutate (p : props) (q : jsstring) (st : state) : state :=
  {| messages := messages st; sessionId := sessionId st; input := input st;
     isPending := true; console := console st;
     sent := sent st ++ [mutationFn p st q];
     pending := pending st ++ [List.length (sent st)] |}.

(** [handleSend] *)
Definition handleSend (p : props) (message : jsstring) (now : Z) (st : state) : state :=
  mutate p message
    (setMessages (fun prev =>
       prev ++ [ {| id := ("user-"%string, now); content := Some message; type := user;
                    msg_sources := None; timestamp := now |} ]) st).

(** [InputBar.handleSubmit], with [onSend = handleSend],
    [isLoading = chatMutation.isPending] and [disabled = false]. *)
Definition handleSubmit (p : props) (now : Z) (st : state) : state :=
  if truthy_string (trim (input st)) && negb (isPending st) && negb false
  then setInput [] (handleSend p (trim (input st)) now st)
  else st.

(** [onSuccess] *)
Definition onSuccess (data : ChatQueryResponse) (now : Z) (st : state) : state :=
  setMessages (fun prev =>
    prev ++ [ {| id := ("assistant-"%string, now); content := response data;
                 type := assistant; msg_sources := sources data;
                 timestamp := now |} ]) st.

(** [onError] *)
Definition onError (e : error) (now : Z) (st : state) : state :=
  log_error "Chat error:" e
    (setMessages (fun prev =>
       prev ++ [ {| id := ("error-"%string, now); content := Some apology;
                    type := assistant; msg_sources := None;
                    timestamp := now |} ]) st).

(** [chatApi.query] through axios: the promise rejects when no answer
    arrives and when the status is outside 200..299; a body that is
    not JSON is handed over as it is, a string, which has none of the
    fields. *)
Definition chatApi_query (o : fetch_outcome ChatQueryResponse) : ChatQueryResponse + error :=
  match o with
  | rejected => inr NetworkError
  | not_json status =>
      if (200 <=? status) && (status <? 300)
      then inl {| response := None; sources := None; resp_session_id := None |}
      else inr (AxiosError status)
  | json status data =>
      if (200 <=? status) && (status <? 300) then inl data else inr (AxiosError status)
  end.

(** The example questions of the welcome screen. *)
Definition examples : list jsstring :=
  [ lit "What's Aetna's timely filing rule?";
    lit "Tell me about prior authorization requirements";
    lit "What are United Healthcare's appeals processes?";
    lit "Compare timely filing rules across payers" ].

Inductive event : Type :=
| change_input (text : jsstring)
| submit (now : Z)                         (* the send button, or Enter *)
| click_example (i : nat) (now : Z)
| mutation_settled (k : nat) (o : fetch_outcome ChatQueryResponse) (now : Z).

Definition is_pending (k : nat) (st : state) : bool :=
  existsb (Nat.eqb k) (pending st).

(** The request [k] has settled.  [isPending] is the flag of the
    mutation started last, and it is taken to be up to date when the
    next event is handled. *)
Definition settle (k : nat) (st : state) : state :=
  {| messages := messages st; sessionId := sessionId st; input := input st;
     isPending := if Nat.eqb (S k) (List.length (sent st)) then false else isPending st;
     console := console st; sent := sent st;
     pending := filter (fun j => negb (Nat.eqb k j)) (pending st) |}.

Definition step (p : props) (st : state) (e : event) : state :=
  match e with
  | change_input text =>
      (* [<textarea disabled={disabled || isLoading}>] *)
      if isPending st then st else setInput text st
  | submit now => handleSubmit p now st
  | click_example i now =>
      (* the buttons are rendered when [messages.length === 0] *)
      match messages st, nth_error examples i with
      | [], Some example => handleSend p example now st
      | _, _ => st
      end
  | mutation_settled k o now =>
      if is_pending k st then
        match chatApi_query o with
        | inl data => onSuccess data now (settle k st)
        | inr e => onError e now (settle k st)
        end
      else st
  end.

Definition run (p : props) (events : list event) (st : state) : state :=
  fold_left (step p) events st.

(** The component when it mounts. *)
Definition mounted (sid : jsstring) : state :=
  {| messages := []; sessionId := sid; input := []; isPending := false;
     console := []; sent := []; pending := [] |}.

End React.

(* ------------------------------------------------------------------ *)
(** ** Sample data *)

Definition mkSource (rid : Z) (payer rtype : string)
    (similarity combined : option Q) : Source :=
  {| rule_id := rid; payer_name := lit payer; rule_type := lit rtype;
     title := None; content_excerpt := None; effective_date := None;
     source_url := None;
     similarity_score := similarity; combined_score := combined |}.

(** [{rule_id: 1, payer_name: "Aetna", rule_type: "timely_filing", combined_score: 0.92}] *)
Definition aetna_092 : Source :=
  mkSource 1 "Aetna" "timely_filing" None (Some (92 # 100)).

(** A source with [combined_score: 0.7] and one with only
    [similarity_score: 0.95], in the order the backend sent them. *)
Definition combined_070 : Source :=
  mkSource 2 "Cigna" "appeals" None (Some (7 # 10)).
Definition similarity_095 : Source :=
  mkSource 3 "Humana" "prior_authorization" (Some (95 # 100)) None.

(** [{combined_score: 0, similarity_score: 0.5}] *)
Definition combined_zero : Source :=
  mkSource 4 "Aetna" "appeals" (Some (1 # 2)) (Some 0%Q).


(** A page of the plain front end after [initializeApp], and the
    settled requests used in the scenarios below. *)
Definition page0 : Legacy.state :=
  Legacy.loaded (Some (lit "session_1_abc")) (Legacy.stats_markup []) (Legacy.alerts_markup []).

(** A 200 answer with a text, no sources and maybe a session id. *)
Definition answer (text : string) (sid : option jsstring) : ChatQueryResponse :=
  {| response := Some (lit text); sources := Some []; resp_session_id := sid |}.

(** [HTTP 500] with the body [{"detail": "Internal Server Error"}]:
    valid JSON that has none of the fields of a chat answer. *)
Definition server_error_500 : fetch_outcome chat_body :=
  json 500 (body_object {| response := None; sources := None; resp_session_id := None |}).

Definition rate_alert : Legacy.Alert :=
  {| Legacy.alert_id := 7; Legacy.alert_title := lit "Policy change";
     Legacy.alert_message := lit "Timely filing limit changed";
     Legacy.alert_severity := lit "high" |}.

(** The request did not produce a parsed body: [fetch] rejected, or
    [response.json()] did. *)
Definition fetch_fails {D : Type} (o : fetch_outcome D) : bool :=
  match o with
  | rejected => true
  | not_json _ => true
  | json _ _ => false
  end.

(** The roles of a conversation in which every user message is
    followed by its answer before the next user message; the flag tells
    whether the last user message still waits for its answer. *)
Inductive ordered : list React.role -> bool -> Prop :=
| ordered_nil : ordered [] false
| ordered_user l : ordered l false -> ordered (l ++ [React.user]) true
| ordered_assistant l : ordered l true -> ordered (l ++ [React.assistant]) false.

(** The invariant of [ChatInterface]: either nothing is pending and
    every question has its answer, or exactly the request sent last is
    pending, the mutation says so, and the last message is the question
    it carries. *)
Definition one_in_flight (st : React.state) : Prop :=
  (React.pending st = [] /\ ordered (map React.type (React.messages st)) false)
  \/ (React.pending st = [pred (List.length (React.sent st))]
      /\ React.isPending st = true
      /\ React.sent st <> []
      /\ ordered (map React.type (React.messages st)) true).

(* ------------------------------------------------------------------ *)
(** ** [frontend/app.js]: the rest of the page *)

Module Page.

(** The text of a text node as [innerHTML] serialises it. *)
Definition escape_text_unit (c : N) : jsstring :=
  if (c =? 38)%N then lit "&amp;"
  else if (c =? 160)%N then lit "&nbsp;"
  else if (c =? 60)%N then lit "&lt;"
  else if (c =? 62)%N then lit "&gt;"
  else [c].

(** [div.textContent = text; div.innerHTML]; [undefined] sets the empty
    text. *)
Definition innerHTML_of_text (text : option jsstring) : jsstring :=
  match text with
  | Some s => flat_map escape_text_unit s
  | None => []
  end.

(** [.replace(/\n/g, '<br>')] *)
Definition replace_newlines (s : jsstring) : jsstring :=
  flat_map (fun c => if (c =? 10)%N then lit "<br>" else [c]) s.

(** [escapeHtml] *)
Definition escapeHtml (text : option jsstring) : jsstring :=
  replace_newlines (innerHTML_of_text text).

(** The fields of a payer that the page reads. *)
Record Payer := {
  payer_id : Z;
  name : jsstring;
  total_rules : Z
}.

(** The parsed body of [/payers]: an array, or a value that has no
    [map] ([null], an error object). *)
Inductive payers_body : Type :=
| payers_array (payers : list Payer)
| payers_other.

Inductive payers_html : Type :=
| payers_markup (html : jsstring)
| payers_loading (text : string)           (* [<div class="loading">text</div>] *)
| payer_items (items : list Payer).

(** The options of [#payerFilter]: as shipped, or "All Payers" followed
    by one option per name. *)
Inductive options_html : Type :=
| options_markup (html : jsstring)
| payer_options (names : list jsstring).

(** The parsed body of [/health]. *)
Inductive health_body : Type :=
| health_null
| health_object (status : option jsstring).

Record page := {
  core : Legacy.state;
  currentPayers : payers_body;             (* [let currentPayers = []] *)
  payersList : payers_html;
  payerOptions : options_html;
  statusDotConnected : bool;               (* the dot has the class [connected] *)
  statusText : jsstring
}.

Definition set_core (v : Legacy.state) (pg : page) : page :=
  {| core := v; currentPayers := currentPayers pg; payersList := payersList pg;
     payerOptions := payerOptions pg; statusDotConnected := statusDotConnected pg;
     statusText := statusText pg |}.

Definition set_currentPayers (v : payers_body) (pg : page) : page :=
  {| core := core pg; currentPayers := v; payersList := payersList pg;
     payerOptions := payerOptions pg; statusDotConnected := statusDotConnected pg;
     statusText := statusText pg |}.

Definition set_payersList (v : payers_html) (pg : page) : page :=
  {| core := core pg; currentPayers := currentPayers pg; payersList := v;
     payerOptions := payerOptions pg; statusDotConnected := statusDotConnected pg;
     statusText := statusText pg |}.

Definition set_payerOptions (v : options_html) (pg : page) : page :=
  {| core := core pg; currentPayers := currentPayers pg; payersList := payersList pg;
     payerOptions := v; statusDotConnected := statusDotConnected pg;
     statusText := statusText pg |}.

Definition set_statusDotConnected (v : bool) (pg : page) : page :=
  {| core := core pg; currentPayers := currentPayers pg; payersList := payersList pg;
     payerOptions := payerOptions pg; statusDotConnected := v;
     statusText := statusText pg |}.

Definition set_statusText (v : jsstring) (pg : page) : page :=
  {| core := core pg; currentPayers := currentPayers pg; payersList := payersList pg;
     payerOptions := payerOptions pg; statusDotConnected := statusDotConnected pg;
     statusText := v |}.

(** Statements over the whole page: as [Legacy.js], with the same
    completions. *)
Definition js (A : Type) : Type := page -> Legacy.completion A * page.

Definition ret {A} (a : A) : js A := fun pg => (Legacy.normal a, pg).

Definition raise {A} (e : error) : js A := fun pg => (Legacy.throw e, pg).

Definition bind {A B} (m : js A) (k : A -> js B) : js B :=
  fun pg =>
    match m pg with
    | (Legacy.normal a, pg') => k a pg'
    | (Legacy.throw e, pg') => (Legacy.throw e, pg')
    end.

Definition try_catch {A} (body : js A) (handler : error -> js A) : js A :=
  fun pg =>
    match body pg with
    | (Legacy.normal a, pg') => (Legacy.normal a, pg')
    | (Legacy.throw e, pg') => handler e pg'
    end.

Definition update (f : page -> page) : js unit := fun pg => (Legacy.normal tt, f pg).

(** A statement of [Legacy], run on the part of the page it knows. *)
Definition lift {A} (m : Legacy.js A) : js A :=
  fun pg =>
    match m (core pg) with
    | (c, st') => (c, set_core st' pg)
    end.

Declare Scope page_scope.
Delimit Scope page_scope with page.
Notation "x <- m ;; k" := (bind m (fun x => k))
  (at level 61, m at next level, right associativity) : page_scope.
Notation "m ;; k" := (bind m (fun _ => k))
  (at level 61, right associativity) : page_scope.
Local Open Scope page_scope.

Definition await_json {D} (o : fetch_outcome D) : js D :=
  match o with
  | rejected => raise NetworkError
  | not_json _ => raise SyntaxError
  | json _ data => ret data
  end.

(** [showError] *)
Definition showError (message : string) : js unit :=
  update (set_statusText (lit message)).

(** [checkHealth], once [/health] has settled.  Nothing is caught
    here. *)
Definition checkHealth (h : fetch_outcome health_body) : js unit :=
  data <- await_json h ;;
  match data with
  | health_null => raise TypeError
  | health_object status =>
      if match status with
         | Some s => jsstring_eqb s (lit "healthy")
         | None => false
         end
      then update (set_statusDotConnected true) ;;
           update (set_statusText (lit "Connected"))
      else update (set_statusText (lit "Disconnected"))
  end.

(** [loadPayers], once [/payers] has settled. *)
Definition loadPayers (o : fetch_outcome payers_body) : js unit :=
  try_catch
    (payers <- await_json o ;;
     update (set_currentPayers payers) ;;
     match payers with
     | payers_other => raise TypeError
     | payers_array [] => update (set_payersList (payers_loading "No payers found"))
     | payers_array l =>
         update (set_payersList (payer_items l)) ;;
         update (set_payerOptions (payer_options (map name l)))
     end)
    (fun e =>
       lift (Legacy.log_error "Error loading payers:" e) ;;
       update (set_payersList (payers_loading "Error loading payers"))).

(** One of the three loads that [initializeApp] starts together. *)
Inductive load : Type :=
| stats_load (o : fetch_outcome Legacy.stats_body)
| payers_load (o : fetch_outcome payers_body)
| alerts_load (o : fetch_outcome Legacy.alerts_body).

Definition run_load (l : load) : js unit :=
  match l with
  | stats_load o => lift (Legacy.loadStats o)
  | payers_load o => loadPayers o
  | alerts_load o => lift (Legacy.loadAlerts o)
  end.

(** [await Promise.all([loadStats(), loadPayers(), loadAlerts()])]: the
    loads finish in the order in which their requests settle.  Each of
    them catches what it throws, so the sequence below never stops
    early. *)
Fixpoint all_loads (arrivals : list load) : js unit :=
  match arrivals with
  | [] => ret tt
  | l :: rest => run_load l ;; all_loads rest
  end.

(** [initializeApp], given the settled health check, the loads in their
    order of arrival, and the clock and random digits of
    [generateSessionId]. *)
Definition initializeApp (h : fetch_outcome health_body) (arrivals : list load)
    (now suffix : jsstring) : js unit :=
  try_catch
    (checkHealth h ;;
     all_loads arrivals ;;
     lift (Legacy.update
             (Legacy.set_sessionId (Some (Legacy.generateSessionId now suffix)))))
    (fun e =>
       lift (Legacy.log_error "Initialization error:" e) ;;
       showError "Failed to connect to the API. Make sure the server is running.").

(** The listener on [#chatInput]: Enter sends, Shift+Enter does not. *)
Definition onKeydown (key : jsstring) (shiftKey : bool) : Legacy.js unit :=
  if jsstring_eqb key (lit "Enter") && negb shiftKey
  then Legacy.sendMessage
  else Legacy.ret tt.

(** The page before [initializeApp]. *)
Definition fresh (stats : Legacy.stats_html) (alerts : Legacy.alerts_html)
    (payers : payers_html) (options : options_html) (status : jsstring) : page :=
  {| core := Legacy.loaded None stats alerts;
     currentPayers := payers_array [];
     payersList := payers;
     payerOptions := options;
     statusDotConnected := false;
     statusText := status |}.

End Page.

(* ------------------------------------------------------------------ *)
(** ** [frontend-react]: what the components render *)

Module View.

(** [InputBar]: [disabled={!input.trim() || isLoading || disabled}] on
    the send button, with [disabled = false]. *)
Definition send_disabled (st : React.state) : bool :=
  negb (truthy_string (trim (React.input st))) || React.isPending st || false.

(** [InputBar]: [disabled={disabled || isLoading}] on the textarea. *)
Definition textarea_disabled (st : React.state) : bool :=
  false || React.isPending st.

(** [InputBar.handleKeyDown] *)
Definition handleKeyDown (p : React.props) (key : jsstring) (shiftKey : bool)
    (now : Z) (st : React.state) : React.state :=
  if jsstring_eqb key (lit "Enter") && negb shiftKey
  then React.handleSubmit p now st
  else st.

(** [ChatInterface]: [messages.length === 0 ? (welcome) : (...)] *)
Definition shows_welcome (st : React.state) : bool :=
  Nat.eqb (List.length (React.messages st)) 0.

(** [ChatInterface]: [{chatMutation.isPending && <TypingIndicator />}],
    in the branch that lists the messages. *)
Definition shows_typing (st : React.state) : bool :=
  negb (shows_welcome st) && React.isPending st.

(** [SourceCard]: [source.rule_type.replace(/_/g, ' ')] *)
Definition shown_rule_type (source : Source) : jsstring :=
  map (fun c => if (c =? 95)%N then 32%N else c) (rule_type source).

(** [MessageBubble]: [key={source.rule_id || index}] *)
Definition card_key (source : Source) (index : nat) : Z :=
  if rule_id source =? 0 then Z.of_nat index else rule_id source.

Fixpoint keys_from (index : nat) (sources : list Source) : list Z :=
  match sources with
  | [] => []
  | source :: rest => card_key source index :: keys_from (S index) rest
  end.

End View.

(* ------------------------------------------------------------------ *)
(** ** Predicates used in the statements *)

Definition is_bot_or_user (n : Legacy.node) : bool :=
  match n with
  | Legacy.message _ _ _ => true
  | _ => false
  end.

(** What every request that leaves a front end looks like. *)
Definition well_formed_request (r : ChatQueryRequest) : Prop :=
  query r <> []
  /\ trim (query r) = query r
  /\ req_payer_name r <> Some []
  /\ req_rule_type r <> Some []
  /\ include_sources r = true.



(** The health check threw: no answer, a body that is not JSON, or
    [null]. *)
Definition health_fails (h : fetch_outcome Page.health_body) : bool :=
  match h with
  | json _ (Page.health_object _) => false
  | _ => true
  end.

(* ------------------------------------------------------------------ *)
(** ** The scores in double arithmetic *)

(** The program multiplies the score by 100 as IEEE 754 doubles before
    it rounds; the product of two doubles is rounded to the nearest
    double, which can move it across a half.  This module follows the
    score through [SpecFloat], the Standard Library's specification of
    binary floating point, at binary64. *)

(** The nearest integer of a rational, a tie going up ([Math_round]
    above, under a name the module below does not take). *)
Definition nearest_tie_up (x : Q) : Z := Math_round x.

Module Double.

Definition number : Type := spec_float.

Definition times (x y : number) : number := SFmul 53 1024 x y.

Definition of_Z (z : Z) : number := binary_normalize 53 1024 z 0 false.

(** The exponent of a power of two. *)
Fixpoint log2_exact (p : positive) : option Z :=
  match p with
  | xH => Some 0
  | xO p' => option_map Z.succ (log2_exact p')
  | xI _ => None
  end.

(** The double a number of a JSON body is read as.  A rational that is
    the value of a double is that double; a decimal fraction whose
    numerator and denominator are doubles is the double nearest to
    it. *)
Definition of_json (q : Q) : number :=
  match log2_exact (Qden q) with
  | Some k => binary_normalize 53 1024 (Qnum q) (- k) false
  | None => SFdiv 53 1024 (of_Z (Qnum q)) (of_Z (Zpos (Qden q)))
  end.

(** The exact value of a finite double. *)
Definition value (x : number) : option Q :=
  match x with
  | S754_zero _ => Some 0%Q
  | S754_finite s m e =>
      let v := match e with
               | Z0 => inject_Z (Zpos m)
               | Zpos p => inject_Z (Zpos m * Z.pow_pos 2 p)
               | Zneg p => Zpos m # Pos.pow 2 p
               end in
      Some (if s then (- v)%Q else v)
  | S754_infinity _ => None
  | S754_nan => None
  end.

(** [ToBoolean] on a possibly missing number: [undefined], [0], [-0]
    and [NaN] are falsy. *)
Definition truthy (v : option number) : bool :=
  match v with
  | Some (S754_finite _ _ _) => true
  | Some (S754_infinity _) => true
  | _ => false
  end.

(** [a || b] *)
Definition or (a b : option number) : option number :=
  if truthy a then a else b.

(** [a || d] where [d] is a number. *)
Definition or_number (a : option number) (d : number) : number :=
  match a with
  | Some x => if truthy a then x else d
  | None => d
  end.

(** [source.combined_score || source.similarity_score || 0] *)
Definition displayScore (source : Source) : number :=
  or_number (or (option_map of_json (combined_score source))
                (option_map of_json (similarity_score source)))
            (of_Z 0).

(** [(source.combined_score || source.similarity_score || 0) * 100] *)
Definition score (source : Source) : number :=
  times (displayScore source) (of_Z 100).

(** What [Math.round] returns: an integer, or its argument when that is
    not finite. *)
Inductive integer : Type :=
| int (z : Z)
| infinity (negative : bool)
| nan.

(** [Math.round]: on a finite double, the nearest integer of its exact
    value, a tie going up. *)
Definition Math_round (x : number) : integer :=
  match value x with
  | Some v => int (Math_round v)
  | None =>
      match x with
      | S754_infinity s => infinity s
      | _ => nan
      end
  end.

(** [SourceCard.tsx]: [const matchScore = Math.round((...) * 100)] *)
Definition matchScore (source : Source) : integer := Math_round (score source).

(** [matchScore >= k] *)
Definition geb (m : integer) (k : Z) : bool :=
  match m with
  | int z => k <=? z
  | infinity negative => negb negative
  | nan => false
  end.

(** [SourceCard.tsx]: the colour classes of the score badge. *)
Definition badgeClass (matchScore : integer) : string :=
  if geb matchScore 80 then "bg-green-100 text-green-700"
  else if geb matchScore 60 then "bg-yellow-100 text-yellow-700"
  else "bg-gray-100 text-gray-700".

(** What [x.toFixed(0)] prints: an optional minus sign and the digits of
    an integer, or [String(x)] when [x] is not finite or is 10^21 or
    more in size. *)
Inductive fixed : Type :=
| digits (minus : bool) (n : Z)
| as_string (x : number).

(** [x.toFixed(0)]: the sign is split off, and the integer is the
    nearest one to what is left, the larger one of two. *)
Definition toFixed0 (x : number) : fixed :=
  match value x with
  | Some v =>
      if Qle_bool (inject_Z (10 ^ 21)) (Qabs v) then as_string x
      else digits (negb (Qle_bool 0 v)) (nearest_tie_up (Qabs v))
  | None => as_string x
  end.

(** [app.js]: [${score.toFixed(0)}% match] *)
Definition item_text (source : Source) : fixed := toFixed0 (score source).


End Double.

Definition combined_0595 : Source :=
  mkSource 10 "Cigna" "appeals" None (Some (595 # 1000)).

(** The request that is pending is the one sent last, and the message
    at the end of the conversation is the user message with its
    query. *)
Definition last_question_pending (st : React.state) : Prop :=
  React.pending st = []
  \/ exists msgs m reqs r,
       React.messages st = msgs ++ [m]
       /\ React.sent st = reqs ++ [r]
       /\ React.pending st = [List.length reqs]
       /\ React.type m = React.user
       /\ React.content m = Some (query r).

(* ------------------------------------------------------------------ *)
(** * Properties *)

(** ** Numbers *)

Section Rounding.

Lemma Math_round_nearest (x : Q) :
  (inject_Z (Math_round x) - (1 # 2) <= x)%Q /\ (x < inject_Z (Math_round x) + (1 # 2))%Q.
Proof.
  unfold Math_round.
  pose proof (Qfloor_le (x + (1 # 2))) as Hlo.
  pose proof (Qlt_floor (x + (1 # 2))) as Hhi.
  rewrite inject_Z_plus in Hhi.
  change (inject_Z 1) with 1%Q in Hhi.
  split; lra.
Qed.



Lemma toFixed0_nonneg (x : Q) : (0 <= x)%Q -> toFixed0 x = Math_round x.
Proof.
  intro H. unfold toFixed0, Math_round.
  apply Qle_bool_iff in H. rewrite H. reflexivity.
Qed.

Lemma toFixed0_neg (x : Q) : (x < 0)%Q -> toFixed0 x = - Math_round (- x).
Proof.
  intro H. unfold toFixed0, Math_round.
  destruct (Qle_bool 0 x) eqn:E; [|reflexivity].
  apply Qle_bool_iff in E. lra.
Qed.

(** [toFixed(0)] yields an integer nearest to its argument. *)
Lemma toFixed0_nearest (x : Q) : (Qabs (inject_Z (toFixed0 x) - x) <= 1 # 2)%Q.
Proof.
  apply Qabs_Qle_condition.
  destruct (Qlt_le_dec x 0) as [Hneg|Hpos].
  - rewrite (toFixed0_neg x Hneg), inject_Z_opp.
    destruct (Math_round_nearest (- x)) as [Hlo Hhi]. split; lra.
  - rewrite (toFixed0_nonneg x Hpos).
    destruct (Math_round_nearest x) as [Hlo Hhi]. split; lra.
Qed.

End Rounding.

(** ** The score a source is shown with *)

Section DisplayScore.

Variable s : Source.

(** When the combined score is a number other than zero it is the one
    shown. *)
Lemma displayScore_combined (c : Q) :
  combined_score s = Some c -> ~ (c == 0)%Q -> displayScore s = c.
Proof.
  intros Hc Hnz. unfold displayScore, js_or, truthy_number. rewrite Hc.
  destruct (Qeq_bool c 0) eqn:E.
  - apply Qeq_bool_iff in E. contradiction.
  - simpl. rewrite E. reflexivity.
Qed.

(** A combined score that is missing or zero leaves the choice to the
    similarity score. *)
Lemma displayScore_fallback :
  truthy_number (combined_score s) = false ->
  displayScore s = js_or_number (similarity_score s) 0.
Proof.
  intro H. unfold displayScore, js_or. rewrite H. reflexivity.
Qed.

Lemma displayScore_none :
  combined_score s = None -> similarity_score s = None -> displayScore s = 0%Q.
Proof.
  intros Hc Hs. unfold displayScore, js_or. rewrite Hc, Hs. reflexivity.
Qed.

End DisplayScore.

(** ** The order of the sources of a message *)

Section Order.

Lemma mapi_from_sources (srcs : list Source) :
  forall i, map SourceCard.card_source (MessageBubble.mapi_from i srcs) = srcs.
Proof.
  induction srcs as [|a r IH]; intro i; simpl.
  - reflexivity.
  - rewrite IH. reflexivity.
Qed.

Lemma mapi_from_numbers (srcs : list Source) :
  forall i, map SourceCard.card_number (MessageBubble.mapi_from i srcs)
            = map (fun k => Z.of_nat k + 1) (seq i (List.length srcs)).
Proof.
  induction srcs as [|a r IH]; intro i; simpl.
  - reflexivity.
  - rewrite IH. reflexivity.
Qed.

Lemma forEach_from_sources (srcs : list Source) :
  forall i, map Legacy.item_source (Legacy.forEach_from i srcs) = srcs.
Proof.
  induction srcs as [|a r IH]; intro i; simpl.
  - reflexivity.
  - rewrite IH. reflexivity.
Qed.

Lemma forEach_from_numbers (srcs : list Source) :
  forall i, map Legacy.item_number (Legacy.forEach_from i srcs)
            = map (fun k => Z.of_nat k + 1) (seq i (List.length srcs)).
Proof.
  induction srcs as [|a r IH]; intro i; simpl.
  - reflexivity.
  - rewrite IH. reflexivity.
Qed.

End Order.

(** C1, as stated, fails: the backend sends a source with
    [combined_score: 0.7] before one with only [similarity_score: 0.95];
    both front ends lay them out in that order, 70% above 95%, so the
    list shown is not in non-increasing order of display score. *)
Lemma sources_shown_unsorted :
  map SourceCard.card_percent
      (MessageBubble.sourceCards (Some [combined_070; similarity_095])) = [70; 95]
  /\ is_descending
       (map displayScore
          (map SourceCard.card_source
             (MessageBubble.sourceCards (Some [combined_070; similarity_095])))) = false
  /\ is_descending
       (map displayScore
          (map Legacy.item_source
             (Legacy.message_sources (Some [combined_070; similarity_095])))) = false.
Proof. repeat split; vm_compute; reflexivity. Qed.

(** C1, amended: the sources of an assistant message are shown in
    exactly the order in which the backend returned them, numbered from
    1, in both front ends; nothing is re-sorted.  So sources keep their
    relative order (equal scores or not), and the list shown is in
    non-increasing order of display score exactly when the backend's
    list is. *)
Theorem sources_shown_in_backend_order (srcs : list Source) :
  map SourceCard.card_source (MessageBubble.sourceCards (Some srcs)) = srcs
  /\ map SourceCard.card_number (MessageBubble.sourceCards (Some srcs))
     = map (fun k => Z.of_nat k + 1) (seq 0 (List.length srcs))
  /\ map Legacy.item_source (Legacy.message_sources (Some srcs)) = srcs
  /\ map Legacy.item_number (Legacy.message_sources (Some srcs))
     = map (fun k => Z.of_nat k + 1) (seq 0 (List.length srcs))
  /\ is_descending
       (map displayScore
          (map SourceCard.card_source (MessageBubble.sourceCards (Some srcs))))
     = is_descending (map displayScore srcs)
  /\ is_descending
       (map displayScore
          (map Legacy.item_source (Legacy.message_sources (Some srcs))))
     = is_descending (map displayScore srcs).
Proof.
  unfold MessageBubble.sourceCards, Legacy.message_sources.
  rewrite mapi_from_sources, forEach_from_sources.
  repeat split.
  - apply mapi_from_numbers.
  - apply forEach_from_numbers.
Qed.

(** C2: a source with [combined_score: 0] and [similarity_score: 0.5].
    The combined score is present, yet [||] passes over it: both front
    ends show the similarity score, 50%, where the claim asks for the
    combined score, 0%. *)
Theorem zero_combined_score_is_passed_over :
  combined_score combined_zero = Some 0%Q
  /\ displayScore combined_zero = (1 # 2)%Q
  /\ SourceCard.matchScore combined_zero = 50
  /\ map Legacy.item_percent (Legacy.message_sources (Some [combined_zero])) = [50].
Proof. repeat split. Qed.




(** The scenario of the timely-filing question: a combined score of
    0.92 shows as 92% on a green badge. *)
Example aetna_092_card :
  SourceCard.card_percent (SourceCard.SourceCard aetna_092 0) = 92
  /\ SourceCard.card_badge (SourceCard.SourceCard aetna_092 0)
     = "bg-green-100 text-green-700"%string.
Proof. split; reflexivity. Qed.

(** ** [trim] *)

Section Trim.

Lemma trimStart_blank (s : jsstring) : blank s -> trimStart s = [].
Proof.
  induction 1 as [|c r Hc _ IH]; simpl.
  - reflexivity.
  - rewrite Hc. exact IH.
Qed.

Lemma trimStart_split (s : jsstring) :
  exists l, blank l /\ s = l ++ trimStart s.
Proof.
  induction s as [|c r [l [Hl IH]]]; simpl.
  - exists []. split; [constructor | reflexivity].
  - destruct (isWhiteSpace c) eqn:E.
    + exists (c :: l). split.
      * constructor; assumption.
      * simpl. rewrite <- IH. reflexivity.
    + exists []. split; [constructor | reflexivity].
Qed.

Lemma trimStart_head (s : jsstring) (c : N) :
  hd_error (trimStart s) = Some c -> isWhiteSpace c = false.
Proof.
  induction s as [|a r IH]; simpl.
  - discriminate.
  - destruct (isWhiteSpace a) eqn:E.
    + exact IH.
    + simpl. intro H. injection H as <-. exact E.
Qed.

Lemma blank_rev (s : jsstring) : blank s -> blank (rev s).
Proof. apply Forall_rev. Qed.

Lemma trimEnd_split (s : jsstring) :
  exists r, blank r /\ s = trimEnd s ++ r.
Proof.
  destruct (trimStart_split (rev s)) as [l [Hl E]].
  exists (rev l). split.
  - apply blank_rev. exact Hl.
  - unfold trimEnd. rewrite <- rev_app_distr, <- E, rev_involutive. reflexivity.
Qed.

Lemma trimEnd_last (s : jsstring) (c : N) :
  hd_error (rev (trimEnd s)) = Some c -> isWhiteSpace c = false.
Proof.
  unfold trimEnd. rewrite rev_involutive. apply trimStart_head.
Qed.

(** [trim] cuts a blank prefix and a blank suffix off the string, and
    what is left neither starts nor ends with white space. *)
Lemma trim_spec (s : jsstring) :
  exists l r,
    blank l /\ blank r /\ s = l ++ trim s ++ r
    /\ (forall c, hd_error (trim s) = Some c -> isWhiteSpace c = false)
    /\ (forall c, hd_error (rev (trim s)) = Some c -> isWhiteSpace c = false).
Proof.
  destruct (trimStart_split s) as [l [Hl El]].
  destruct (trimEnd_split (trimStart s)) as [r [Hr Er]].
  exists l, r. unfold trim. repeat split; try assumption.
  - rewrite <- Er. exact El.
  - intros c Hc. apply (trimStart_head s).
    rewrite Er. destruct (trimEnd (trimStart s)); [discriminate | exact Hc].
  - intros c. apply trimEnd_last.
Qed.

Lemma trim_blank (s : jsstring) : blank s -> trim s = [].
Proof.
  intro H. unfold trim. rewrite (trimStart_blank s H). reflexivity.
Qed.

Lemma trim_empty_blank (s : jsstring) : trim s = [] -> blank s.
Proof.
  intro H. destruct (trim_spec s) as [l [r [Hl [Hr [E _]]]]].
  rewrite H in E. simpl in E. rewrite E.
  apply Forall_app. split; assumption.
Qed.

End Trim.

(** C6: a query that is empty or made of white space only is dropped
    where it is submitted, in both front ends: the state after the click
    is the state before it, so no message is added, no request is
    logged, nothing is written to the console, and the handler
    completes normally. *)
Theorem blank_query_is_dropped (text : jsstring) :
  blank text ->
  (forall st, Legacy.chatInput st = text ->
     Legacy.run_event st Legacy.click_send = (Legacy.normal tt, st))
  /\ (forall p now st, React.input st = text ->
        React.step p st (React.submit now) = st).
Proof.
  intro H. split.
  - intros st E. unfold Legacy.run_event. simpl. unfold Legacy.sendMessage.
    rewrite E, (trim_blank text H). reflexivity.
  - intros p now st E. simpl. unfold React.handleSubmit.
    rewrite E, (trim_blank text H). reflexivity.
Qed.

Lemma blank_query_is_dropped_witness :
  blank [32; 9; 160; 10]%N
  /\ Legacy.run_event
       (Legacy.set_chatInput [32; 9; 160; 10]%N
          (Legacy.loaded None (Legacy.stats_markup []) (Legacy.alerts_markup [])))
       Legacy.click_send
     = (Legacy.normal tt,
        Legacy.set_chatInput [32; 9; 160; 10]%N
          (Legacy.loaded None (Legacy.stats_markup []) (Legacy.alerts_markup [])))
  /\ React.step React.App_props
       (React.setInput [32; 9; 160; 10]%N (React.mounted (lit "session_1_abc")))
       (React.submit 5)
     = React.setInput [32; 9; 160; 10]%N (React.mounted (lit "session_1_abc")).
Proof.
  assert (H : blank [32; 9; 160; 10]%N) by (repeat constructor).
  destruct (blank_query_is_dropped _ H) as [HL HR].
  split; [exact H|]. split.
  - apply HL. reflexivity.
  - apply HR. reflexivity.
Defined.

(** C10: when a message is submitted through the input, the text of the
    user message that is added and the [query] of the request that
    leaves are both [trim] of what was typed, in both front ends; and
    [trim] of a text is that text less a prefix and a suffix of white
    space, with no white space left at either end. *)
Theorem submitted_text_is_trimmed (text : jsstring) :
  trim text <> [] ->
  (forall st, Legacy.chatInput st = text ->
     let st' := snd (Legacy.run_event st Legacy.click_send) in
     Legacy.chatMessages st'
       = Legacy.remove_first Legacy.is_welcome (Legacy.chatMessages st)
         ++ [Legacy.message Legacy.user (Some (trim text)) []; Legacy.typingIndicator]
     /\ exists req, Legacy.sent st' = Legacy.sent st ++ [req] /\ query req = trim text)
  /\ (forall p now st, React.input st = text -> React.isPending st = false ->
        let st' := React.step p st (React.submit now) in
        (exists m, React.messages st' = React.messages st ++ [m]
                   /\ React.type m = React.user
                   /\ React.content m = Some (trim text))
        /\ exists req, React.sent st' = React.sent st ++ [req] /\ query req = trim text)
  /\ exists l r,
       blank l /\ blank r /\ text = l ++ trim text ++ r
       /\ (forall c, hd_error (trim text) = Some c -> isWhiteSpace c = false)
       /\ (forall c, hd_error (rev (trim text)) = Some c -> isWhiteSpace c = false).
Proof.
  intro Hne. split; [|split].
  - intros st E. unfold Legacy.run_event. simpl. unfold Legacy.sendMessage.
    rewrite E. destruct (trim text) as [|c q] eqn:Et; [contradiction|].
    simpl. split.
    + rewrite <- app_assoc. reflexivity.
    + eexists. split; reflexivity.
  - intros p now st E Hp. simpl. unfold React.handleSubmit.
    rewrite E, Hp. destruct (trim text) as [|c q] eqn:Et; [contradiction|].
    simpl. split.
    + eexists. repeat split.
    + eexists. split; reflexivity.
  - apply trim_spec.
Qed.

Lemma submitted_text_is_trimmed_witness :
  trim (lit "  hi there ") <> []
  /\ exists req,
       Legacy.sent
         (snd (Legacy.run_event
                 (Legacy.set_chatInput (lit "  hi there ")
                    (Legacy.loaded None (Legacy.stats_markup []) (Legacy.alerts_markup [])))
                 Legacy.click_send))
       = [req]
       /\ query req = lit "hi there".
Proof.
  assert (Hne : trim (lit "  hi there ") <> []) by (vm_compute; discriminate).
  destruct (submitted_text_is_trimmed _ Hne) as [HL _].
  destruct (HL (Legacy.set_chatInput (lit "  hi there ")
                  (Legacy.loaded None (Legacy.stats_markup []) (Legacy.alerts_markup [])))
               eq_refl) as [_ [req [Hs Hq]]].
  split; [exact Hne|].
  exists req. split; [exact Hs|].
  rewrite Hq. vm_compute. reflexivity.
Defined.

(** ** Exceptions stay inside the handlers of the plain front end *)

Section NoEscape.

Lemma sendMessage_resume_completes (o : fetch_outcome chat_body) (st : Legacy.state) :
  fst (Legacy.sendMessage_resume o st) = Legacy.normal tt.
Proof.
  destruct o as [|status|status [|d]]; try reflexivity.
  unfold Legacy.sendMessage_resume, Legacy.try_catch, Legacy.bind. simpl.
  destruct (truthy_opt_string (resp_session_id d)); reflexivity.
Qed.

Lemma loadStats_completes (o : fetch_outcome Legacy.stats_body) (st : Legacy.state) :
  fst (Legacy.loadStats o st) = Legacy.normal tt.
Proof. destruct o as [|status|status [|tp tr ua]]; reflexivity. Qed.

Lemma loadAlerts_completes (o : fetch_outcome Legacy.alerts_body) (st : Legacy.state) :
  fst (Legacy.loadAlerts o st) = Legacy.normal tt.
Proof. destruct o as [|status|status [[|a l]|]]; reflexivity. Qed.

Lemma sendMessage_completes (st : Legacy.state) :
  fst (Legacy.sendMessage st) = Legacy.normal tt.
Proof.
  unfold Legacy.sendMessage.
  destruct (negb (truthy_string (trim (Legacy.chatInput st)))); reflexivity.
Qed.

(** No handler lets an exception out. *)
Lemma handler_completes (e : Legacy.event) (st : Legacy.state) :
  fst (Legacy.run_event st e) = Legacy.normal tt.
Proof.
  unfold Legacy.run_event.
  destruct e as [text|payer ruleType| |k o|now suffix|o|o]; simpl; try reflexivity.
  - apply sendMessage_completes.
  - destruct (Legacy.is_pending k st); [|reflexivity].
    unfold Legacy.bind. simpl. apply sendMessage_resume_completes.
  - apply loadStats_completes.
  - apply loadAlerts_completes.
Qed.

(** Whatever the events of a run, the list of uncaught errors after it
    is the list before it: nothing escapes. *)
Lemma run_no_uncaught (events : list Legacy.event) :
  forall st uncaught, snd (Legacy.run events st uncaught) = uncaught.
Proof.
  induction events as [|e rest IH]; intros st uncaught; simpl.
  - reflexivity.
  - pose proof (handler_completes e st) as H.
    destruct (Legacy.run_event st e) as [[[]|err] st']; simpl in H.
    + apply IH.
    + discriminate H.
Qed.

(** When the request is rejected or its body is not JSON, the answer is
    one bot message with the apology and no sources; the typing
    indicator is gone and the error is on the console. *)
Lemma failed_request_apologises (o : fetch_outcome chat_body) (st : Legacy.state) :
  fetch_fails o = true ->
  exists e,
    Legacy.sendMessage_resume o st
    = (Legacy.normal tt,
       Legacy.set_chatMessages
         (Legacy.remove_first Legacy.is_welcome
            (Legacy.remove_first Legacy.is_typing (Legacy.chatMessages st))
          ++ [Legacy.message Legacy.bot (Some apology) []])
         (Legacy.set_console
            (Legacy.console st ++ [Legacy.console_error "Error sending message:" e]) st)).
Proof.
  destruct o as [|status|status data]; intro H; try discriminate H.
  - exists NetworkError. reflexivity.
  - exists SyntaxError. reflexivity.
Qed.

(** The React front end: a rejected call, or an answer whose status is
    outside 200..299, whether its body is JSON or not, ends in
    [onError]: one assistant message with the apology and no sources,
    and the mutation is no longer pending. *)
Lemma react_failed_request_apologises (p : React.props) (st : React.state)
    (o : fetch_outcome ChatQueryResponse) (now : Z) :
  React.pending st = [pred (List.length (React.sent st))] ->
  React.sent st <> [] ->
  (o = rejected
   \/ exists status, (status < 200 \/ 300 <= status)
                     /\ (o = not_json status \/ exists d, o = json status d)) ->
  let st' := React.step p st (React.mutation_settled (pred (List.length (React.sent st))) o now) in
  React.isPending st' = false
  /\ React.pending st' = []
  /\ exists m, React.messages st' = React.messages st ++ [m]
               /\ React.type m = React.assistant
               /\ React.content m = Some apology
               /\ React.msg_sources m = None.
Proof.
  intros Hp Hs Ho.
  assert (Hq : exists e, React.chatApi_query o = inr e).
  { destruct Ho as [->|[status [Hst Ho]]].
    - exists NetworkError. reflexivity.
    - exists (AxiosError status).
      assert (E : (200 <=? status) && (status <? 300) = false).
      { destruct ((200 <=? status) && (status <? 300)) eqn:E; [|reflexivity].
        apply andb_prop in E. destruct E as [E1 E2].
        apply Z.leb_le in E1. apply Z.ltb_lt in E2. lia. }
      destruct Ho as [->|[d ->]]; simpl; rewrite E; reflexivity. }
  destruct Hq as [e Hq].
  destruct (React.sent st) as [|r l] eqn:Es; [contradiction|].
  simpl in Hp. simpl.
  unfold React.is_pending. rewrite Hp. simpl. rewrite Nat.eqb_refl. simpl.
  rewrite Hq. simpl. rewrite Es, Hp. simpl. rewrite !Nat.eqb_refl. simpl.
  repeat split. eexists. repeat split.
Qed.

End NoEscape.

(** C7: the plain front end and an [HTTP 500] whose body is JSON.
    [fetch] resolves, the body parses, nothing is thrown, and the
    [catch] block never runs: the message added for the answer has no
    text at all ([data.response] is [undefined]) where the claim asks
    for the apology, and nothing is logged. *)
Theorem server_error_shows_no_apology :
  let st := fst (Legacy.run [Legacy.type_input (lit "hi"); Legacy.click_send;
                             Legacy.chat_settled 0 server_error_500] page0 []) in
  Legacy.chatMessages st
  = [Legacy.message Legacy.user (Some (lit "hi")) []; Legacy.message Legacy.bot None []]
  /\ ~ In (Legacy.message Legacy.bot (Some apology) []) (Legacy.chatMessages st)
  /\ Legacy.console st = []
  /\ Legacy.pending st = [].
Proof.
  vm_compute. repeat split.
  intros [H|[H|[]]]; discriminate H.
Qed.

(** ** The session id *)

Section SessionId.

(** The plain front end takes over the session id of a parsed answer
    when it is a non-empty string, and keeps its own otherwise. *)
Lemma legacy_adopts_session_id (k : nat) (status : Z) (d : ChatQueryResponse)
    (st : Legacy.state) :
  Legacy.is_pending k st = true ->
  Legacy.sessionId
    (snd (Legacy.run_event st (Legacy.chat_settled k (json status (body_object d)))))
  = if truthy_opt_string (resp_session_id d) then resp_session_id d
    else Legacy.sessionId st.
Proof.
  intro Hk. unfold Legacy.run_event. simpl. rewrite Hk.
  unfold Legacy.sendMessage_resume, Legacy.try_catch, Legacy.bind, Legacy.when.
  simpl.
  destruct (truthy_opt_string (resp_session_id d)); reflexivity.
Qed.

Lemma react_step_sessionId (p : React.props) (st : React.state) (e : React.event) :
  React.sessionId (React.step p st e) = React.sessionId st.
Proof.
  destruct e as [text|now|i now|k o now]; simpl.
  - destruct (React.isPending st); reflexivity.
  - unfold React.handleSubmit.
    destruct (truthy_string (trim (React.input st)) && negb (React.isPending st) && negb false);
      reflexivity.
  - destruct (React.messages st); [|reflexivity].
    destruct (nth_error React.examples i); reflexivity.
  - destruct (React.is_pending k st); [|reflexivity].
    destruct (React.chatApi_query o); reflexivity.
Qed.

(** [ChatInterface] holds the session id it generated when it mounted,
    whatever happens. *)
Lemma react_sessionId_constant (p : React.props) (events : list React.event) :
  forall st, React.sessionId (React.run p events st) = React.sessionId st.
Proof.
  unfold React.run.
  induction events as [|e rest IH]; intro st; simpl.
  - reflexivity.
  - rewrite IH. apply react_step_sessionId.
Qed.

End SessionId.

(** C5: [ChatInterface] and a 200 answer that carries
    [session_id: "s1"].  The answer is shown, but the session id of the
    component is still the one generated at mount, and the next query
    is sent with it: the id the server provided is dropped, where the
    claim asks for it to be taken over. *)
Theorem react_drops_server_session_id :
  let st := React.run React.App_props
              [React.change_input (lit "hi"); React.submit 10;
               React.mutation_settled 0 (json 200 (answer "ok" (Some (lit "s1")))) 20;
               React.change_input (lit "and then?"); React.submit 30]
              (React.mounted (lit "session_1_abc")) in
  map React.content (React.messages st)
  = [Some (lit "hi"); Some (lit "ok"); Some (lit "and then?")]
  /\ React.sessionId st = lit "session_1_abc"
  /\ React.sessionId st <> lit "s1"
  /\ map session_id (React.sent st)
     = [Some (lit "session_1_abc"); Some (lit "session_1_abc")].
Proof.
  vm_compute. repeat split. discriminate.
Qed.

(** ** The dashboard *)

(** C8, as stated, fails for the alerts: the widget shows an alert,
    the next poll is rejected, and the widget then shows the text
    "Error loading alerts" in place of the alert. *)
Lemma failed_alerts_poll_replaces_widget :
  let before := Legacy.set_alertsList (Legacy.alert_items [rate_alert]) page0 in
  let after := snd (Legacy.run_event before (Legacy.alerts_settled rejected)) in
  Legacy.alertsList before = Legacy.alert_items [rate_alert]
  /\ Legacy.alertsList after = Legacy.alerts_loading "Error loading alerts"
  /\ Legacy.alertsList after <> Legacy.alertsList before.
Proof.
  vm_compute. repeat split. discriminate.
Qed.

(** C8, amended: when a stats poll fails (the fetch is rejected or the
    body is not JSON) the stats widget and the rest of the page stay as
    they were and the error is logged to the console; when an alerts
    poll fails the error is logged and the alerts widget shows the text
    "Error loading alerts", the rest of the page staying as it was.  In
    both cases the handler completes normally: the failure goes no
    further. *)
Theorem failed_poll (st : Legacy.state)
    (os : fetch_outcome Legacy.stats_body) (oa : fetch_outcome Legacy.alerts_body) :
  fetch_fails os = true ->
  fetch_fails oa = true ->
  (exists e,
     Legacy.run_event st (Legacy.stats_settled os)
     = (Legacy.normal tt,
        Legacy.set_console
          (Legacy.console st ++ [Legacy.console_error "Error loading stats:" e]) st))
  /\ (exists e,
        Legacy.run_event st (Legacy.alerts_settled oa)
        = (Legacy.normal tt,
           Legacy.set_alertsList (Legacy.alerts_loading "Error loading alerts")
             (Legacy.set_console
                (Legacy.console st ++ [Legacy.console_error "Error loading alerts:" e]) st))).
Proof.
  intros Hs Ha. split.
  - destruct os as [|status|status data]; try discriminate Hs.
    + exists NetworkError. reflexivity.
    + exists SyntaxError. reflexivity.
  - destruct oa as [|status|status data]; try discriminate Ha.
    + exists NetworkError. reflexivity.
    + exists SyntaxError. reflexivity.
Qed.

Lemma failed_poll_witness :
  Legacy.statsGrid
    (snd (Legacy.run_event
            (Legacy.set_statsGrid (Legacy.stat_cards (Some 4) (Some 120) (Some 2)) page0)
            (Legacy.stats_settled rejected)))
  = Legacy.stat_cards (Some 4) (Some 120) (Some 2)
  /\ Legacy.alertsList
       (snd (Legacy.run_event
               (Legacy.set_statsGrid (Legacy.stat_cards (Some 4) (Some 120) (Some 2)) page0)
               (Legacy.alerts_settled (not_json 502))))
     = Legacy.alerts_loading "Error loading alerts".
Proof.
  destruct (failed_poll
              (Legacy.set_statsGrid (Legacy.stat_cards (Some 4) (Some 120) (Some 2)) page0)
              rejected (not_json 502) eq_refl eq_refl) as [[e1 H1] [e2 H2]].
  rewrite H1, H2. split; reflexivity.
Defined.

(** ** One request at a time *)

Section InFlight.

Lemma ordered_nil_inv (b : bool) : ordered [] b -> b = false.
Proof.
  intro H. inversion H as [|l Hl E|l Hl E]; try reflexivity;
    destruct l; discriminate E.
Qed.

Lemma one_in_flight_handleSend (p : React.props) (st : React.state)
    (message : jsstring) (now : Z) :
  React.pending st = [] ->
  ordered (map React.type (React.messages st)) false ->
  one_in_flight (React.handleSend p message now st).
Proof.
  intros Hp Ho. right. simpl. rewrite Hp, length_app, Nat.add_1_r. simpl.
  repeat split.
  - destruct (React.sent st); discriminate.
  - rewrite map_app. simpl. apply ordered_user. exact Ho.
Qed.

Lemma one_in_flight_step (p : React.props) (st : React.state) (e : React.event) :
  one_in_flight st -> one_in_flight (React.step p st e).
Proof.
  intro Inv. destruct e as [text|now|i now|k o now]; simpl.
  - destruct (React.isPending st); exact Inv.
  - unfold React.handleSubmit.
    destruct (truthy_string (trim (React.input st))); simpl; [|exact Inv].
    destruct (React.isPending st) eqn:Ep; simpl; [exact Inv|].
    destruct Inv as [[Hp Ho]|[_ [Hcontra _]]]; [|congruence].
    exact (one_in_flight_handleSend p st _ now Hp Ho).
  - destruct (React.messages st) as [|m ms] eqn:Em; [|exact Inv].
    destruct (nth_error React.examples i) as [example|]; [|exact Inv].
    destruct Inv as [[Hp Ho]|[_ [_ [_ Ho]]]].
    + apply one_in_flight_handleSend; [exact Hp | exact Ho].
    + rewrite Em in Ho. simpl in Ho. apply ordered_nil_inv in Ho. discriminate Ho.
  - destruct (React.is_pending k st) eqn:Ek; [|exact Inv].
    destruct Inv as [[Hp _]|[Hp [_ [_ Ho]]]].
    + unfold React.is_pending in Ek. rewrite Hp in Ek. discriminate Ek.
    + unfold React.is_pending in Ek. rewrite Hp in Ek. simpl in Ek.
      rewrite orb_false_r in Ek.
      left. destruct (React.chatApi_query o) as [data|err]; simpl;
        rewrite Hp; simpl; rewrite Ek; simpl;
        (split; [reflexivity|]); rewrite map_app; simpl;
        apply ordered_assistant; exact Ho.
Qed.

Lemma last_question_handleSend (p : React.props) (st : React.state)
    (message : jsstring) (now : Z) :
  React.pending st = [] ->
  last_question_pending (React.handleSend p message now st).
Proof.
  intro Hp. right.
  eexists (React.messages st), _, (React.sent st), _.
  simpl. rewrite Hp. repeat split.
Qed.

Lemma last_question_step (p : React.props) (st : React.state) (e : React.event) :
  one_in_flight st -> last_question_pending st ->
  last_question_pending (React.step p st e).
Proof.
  intros Inv Q. destruct e as [text|now|i now|k o now]; simpl.
  - destruct (React.isPending st); exact Q.
  - unfold React.handleSubmit.
    destruct (truthy_string (trim (React.input st))); simpl; [|exact Q].
    destruct (React.isPending st) eqn:Ep; simpl; [exact Q|].
    destruct Inv as [[Hp _]|[_ [Hcontra _]]]; [|congruence].
    exact (last_question_handleSend p st _ now Hp).
  - destruct (React.messages st) as [|m ms] eqn:Em; [|exact Q].
    destruct (nth_error React.examples i) as [example|]; [|exact Q].
    destruct Inv as [[Hp _]|[_ [_ [_ Ho]]]].
    + exact (last_question_handleSend p st _ now Hp).
    + rewrite Em in Ho. simpl in Ho. apply ordered_nil_inv in Ho. discriminate Ho.
  - destruct (React.is_pending k st) eqn:Ek; [|exact Q].
    left.
    destruct Inv as [[Hp _]|[Hp _]];
      unfold React.is_pending in Ek; rewrite Hp in Ek; simpl in Ek; [discriminate Ek|].
    rewrite orb_false_r in Ek.
    destruct (React.chatApi_query o) as [data|err]; simpl;
      rewrite Hp; simpl; rewrite Ek; reflexivity.
Qed.

(** In every state [ChatInterface] can reach, at most one request is
    pending and the messages alternate question and answer; while a
    request is pending it is the one sent last, and the last message is
    the user message that carries its query. *)
Lemma react_one_in_flight (p : React.props) (events : list React.event) (sid : jsstring) :
  one_in_flight (React.run p events (React.mounted sid))
  /\ (List.length (React.pending (React.run p events (React.mounted sid))) <= 1)%nat
  /\ (React.pending (React.run p events (React.mounted sid)) <> [] ->
      exists msgs m reqs r,
        React.messages (React.run p events (React.mounted sid)) = msgs ++ [m]
        /\ React.sent (React.run p events (React.mounted sid)) = reqs ++ [r]
        /\ React.pending (React.run p events (React.mounted sid)) = [List.length reqs]
        /\ React.type m = React.user
        /\ React.content m = Some (query r)).
Proof.
  assert (H : forall st, one_in_flight st /\ last_question_pending st ->
                         one_in_flight (React.run p events st)
                         /\ last_question_pending (React.run p events st)).
  { unfold React.run. induction events as [|e rest IH]; intros st [Inv Q]; simpl.
    - split; assumption.
    - apply IH. split.
      + apply one_in_flight_step. exact Inv.
      + apply last_question_step; assumption. }
  destruct (H (React.mounted sid)) as [Inv Q].
  { split; [left; split; [reflexivity | constructor] | left; reflexivity]. }
  split; [exact Inv|]. split.
  - destruct Inv as [[-> _]|[-> _]]; simpl; lia.
  - intro Hne. destruct Q as [Hp|Q]; [contradiction | exact Q].
Qed.

End InFlight.

(** C9: the plain front end, two questions sent one right after the
    other.  Nothing holds the second one back: both requests are pending
    at once, the second question is on the page before the first
    answer, and when the second request settles first its answer is
    placed above the answer to the first question. *)
Theorem second_query_overtakes_first :
  let both_sent :=
    fst (Legacy.run [Legacy.type_input (lit "a"); Legacy.click_send;
                     Legacy.type_input (lit "b"); Legacy.click_send] page0 []) in
  let settled :=
    fst (Legacy.run [Legacy.chat_settled 1 (json 200 (body_object (answer "B" None)));
                     Legacy.chat_settled 0 (json 200 (body_object (answer "A" None)))]
           both_sent []) in
  map query (Legacy.sent both_sent) = [lit "a"; lit "b"]
  /\ Legacy.pending both_sent = [0%nat; 1%nat]
  /\ Legacy.chatMessages both_sent
     = [Legacy.message Legacy.user (Some (lit "a")) []; Legacy.typingIndicator;
        Legacy.message Legacy.user (Some (lit "b")) []; Legacy.typingIndicator]
  /\ Legacy.chatMessages settled
     = [Legacy.message Legacy.user (Some (lit "a")) [];
        Legacy.message Legacy.user (Some (lit "b")) [];
        Legacy.message Legacy.bot (Some (lit "B")) [];
        Legacy.message Legacy.bot (Some (lit "A")) []].
Proof.
  vm_compute. repeat split.
Qed.

(* ------------------------------------------------------------------ *)
(** * Further properties of the plain front end *)

Section LegacyLists.

Variables p q : Legacy.node -> bool.
Hypothesis apart : forall n, q n = true -> p n = false.

Lemma filter_remove_first_other (l : list Legacy.node) :
  filter p (Legacy.remove_first q l) = filter p l.
Proof.
  induction l as [|n r IH]; simpl.
  - reflexivity.
  - destruct (q n) eqn:Eq.
    + rewrite (apart n Eq). reflexivity.
    + simpl. rewrite IH. reflexivity.
Qed.

End LegacyLists.

Section LegacySteps.





Lemma welcome_not_message (n : Legacy.node) :
  Legacy.is_welcome n = true -> is_bot_or_user n = false.
Proof. destruct n; simpl; congruence. Qed.

Lemma typing_not_message (n : Legacy.node) :
  Legacy.is_typing n = true -> is_bot_or_user n = false.
Proof. destruct n; simpl; congruence. Qed.

(** A property of the page that every handler keeps holds after every
    run. *)
Lemma legacy_run_invariant (P : Legacy.state -> Prop) :
  (forall e st, P st -> P (snd (Legacy.run_event st e))) ->
  forall events st uncaught, P st -> P (fst (Legacy.run events st uncaught)).
Proof.
  intros Hstep events. induction events as [|e rest IH]; intros st uncaught HP; simpl.
  - exact HP.
  - pose proof (Hstep e st HP) as H.
    destruct (Legacy.run_event st e) as [[[]|err] st']; simpl in H; apply IH; exact H.
Qed.

(** The polls leave the chat and the network log alone. *)
Lemma loadStats_chat (o : fetch_outcome Legacy.stats_body) (st : Legacy.state) :
  let st' := snd (Legacy.loadStats o st) in
  Legacy.chatMessages st' = Legacy.chatMessages st
  /\ Legacy.sent st' = Legacy.sent st
  /\ Legacy.pending st' = Legacy.pending st
  /\ Legacy.sessionId st' = Legacy.sessionId st.
Proof. destruct o as [|status|status [|tp tr ua]]; repeat split. Qed.

Lemma loadAlerts_chat (o : fetch_outcome Legacy.alerts_body) (st : Legacy.state) :
  let st' := snd (Legacy.loadAlerts o st) in
  Legacy.chatMessages st' = Legacy.chatMessages st
  /\ Legacy.sent st' = Legacy.sent st
  /\ Legacy.pending st' = Legacy.pending st
  /\ Legacy.sessionId st' = Legacy.sessionId st.
Proof. destruct o as [|status|status [[|a l]|]]; repeat split. Qed.

(** What [sendMessage] does to a text that is not blank. *)
Lemma sendMessage_sends (st : Legacy.state) :
  trim (Legacy.chatInput st) <> [] ->
  let st' := snd (Legacy.sendMessage st) in
  Legacy.chatMessages st'
  = (Legacy.remove_first Legacy.is_welcome (Legacy.chatMessages st)
      ++ [Legacy.message Legacy.user (Some (trim (Legacy.chatInput st))) []])
     ++ [Legacy.typingIndicator]
  /\ Legacy.sent st'
     = Legacy.sent st
       ++ [ {| query := trim (Legacy.chatInput st);
               session_id := Legacy.sessionId st;
               req_payer_name := string_or_absent (Some (Legacy.payerFilter st));
               req_rule_type := string_or_absent (Some (Legacy.ruleTypeFilter st));
               include_sources := true |} ]
  /\ Legacy.pending st' = Legacy.pending st ++ [List.length (Legacy.sent st)].
Proof.
  intro H. unfold Legacy.sendMessage.
  destruct (trim (Legacy.chatInput st)) as [|c r] eqn:E; [contradiction|].
  simpl. repeat split.
Qed.

Lemma sendMessage_blank (st : Legacy.state) :
  trim (Legacy.chatInput st) = [] -> snd (Legacy.sendMessage st) = st.
Proof.
  intro H. unfold Legacy.sendMessage. rewrite H. reflexivity.
Qed.

(** What the rest of [sendMessage] does to the chat, outcome by
    outcome: the typing indicator goes (once, or twice when the body is
    [null]), the welcome text goes, one bot message comes last. *)
Lemma sendMessage_resume_chat (o : fetch_outcome chat_body) (st : Legacy.state) :
  let st' := snd (Legacy.sendMessage_resume o st) in
  Legacy.sent st' = Legacy.sent st
  /\ Legacy.pending st' = Legacy.pending st
  /\ exists content items,
       (Legacy.chatMessages st'
        = Legacy.remove_first Legacy.is_welcome
            (Legacy.remove_first Legacy.is_typing (Legacy.chatMessages st))
          ++ [Legacy.message Legacy.bot content items]
        \/ Legacy.chatMessages st'
           = Legacy.remove_first Legacy.is_welcome
               (Legacy.remove_first Legacy.is_typing
                  (Legacy.remove_first Legacy.is_typing (Legacy.chatMessages st)))
             ++ [Legacy.message Legacy.bot content items]).
Proof.
  destruct o as [|status|status [|d]].
  - repeat split. exists (Some apology), []. left. reflexivity.
  - repeat split. exists (Some apology), []. left. reflexivity.
  - repeat split. exists (Some apology), []. right. reflexivity.
  - unfold Legacy.sendMessage_resume, Legacy.try_catch, Legacy.bind, Legacy.when. simpl.
    destruct (truthy_opt_string (resp_session_id d)); simpl;
      (repeat split; exists (response d), (Legacy.message_sources (sources d));
       left; reflexivity).
Qed.



End LegacySteps.

Section LegacyInvariants.

Lemma chat_settled_pending (k : nat) (o : fetch_outcome chat_body) (st : Legacy.state) :
  Legacy.is_pending k st = true ->
  Legacy.run_event st (Legacy.chat_settled k o)
  = Legacy.sendMessage_resume o
      (Legacy.set_network (Legacy.sent st)
         (filter (fun j => negb (Nat.eqb k j)) (Legacy.pending st)) st).
Proof.
  intro H. unfold Legacy.run_event. simpl. rewrite H. reflexivity.
Qed.

Lemma chat_settled_stale (k : nat) (o : fetch_outcome chat_body) (st : Legacy.state) :
  Legacy.is_pending k st = false ->
  Legacy.run_event st (Legacy.chat_settled k o) = (Legacy.normal tt, st).
Proof.
  intro H. unfold Legacy.run_event. simpl. rewrite H. reflexivity.
Qed.





Lemma trim_fixed (s : jsstring) :
  (forall c, hd_error s = Some c -> isWhiteSpace c = false) ->
  (forall c, hd_error (rev s) = Some c -> isWhiteSpace c = false) ->
  trim s = s.
Proof.
  intros Hhd Hlast.
  assert (Hstart : forall t, (forall c, hd_error t = Some c -> isWhiteSpace c = false) ->
                             trimStart t = t).
  { intros [|c r] H; simpl; [reflexivity|]. rewrite (H c eq_refl). reflexivity. }
  unfold trim, trimEnd. rewrite (Hstart s Hhd), (Hstart (rev s) Hlast).
  apply rev_involutive.
Qed.

Lemma trim_idempotent (s : jsstring) : trim (trim s) = trim s.
Proof.
  destruct (trim_spec s) as [l [r [_ [_ [_ [Hhd Hlast]]]]]].
  apply trim_fixed; assumption.
Qed.

Lemma string_or_absent_not_empty (s : option jsstring) : string_or_absent s <> Some [].
Proof.
  destruct s as [[|c r]|]; simpl; discriminate.
Qed.

Lemma well_formed_step (e : Legacy.event) (st : Legacy.state) :
  Forall well_formed_request (Legacy.sent st) ->
  Forall well_formed_request (Legacy.sent (snd (Legacy.run_event st e))).
Proof.
  intro Inv.
  destruct e as [text|payer ruleType| |k o|now suffix|o|o].
  - exact Inv.
  - exact Inv.
  - unfold Legacy.run_event. simpl.
    destruct (trim (Legacy.chatInput st)) as [|c r] eqn:E.
    + rewrite (sendMessage_blank st E). exact Inv.
    + assert (Hne : trim (Legacy.chatInput st) <> []) by (rewrite E; discriminate).
      destruct (sendMessage_sends st Hne) as [_ [Hs _]].
      rewrite Hs. apply Forall_app. split; [exact Inv|].
      constructor; [|constructor]. unfold well_formed_request. simpl.
      repeat split.
      * exact Hne.
      * apply trim_idempotent.
      * apply string_or_absent_not_empty.
      * apply string_or_absent_not_empty.
  - destruct (Legacy.is_pending k st) eqn:Ek.
    + rewrite (chat_settled_pending k o st Ek).
      set (st1 := Legacy.set_network _ _ st).
      destruct (sendMessage_resume_chat o st1) as [Hs _].
      rewrite Hs. exact Inv.
    + rewrite (chat_settled_stale k o st Ek). exact Inv.
  - exact Inv.
  - unfold Legacy.run_event. simpl.
    destruct (loadStats_chat o st) as [_ [Hs _]]. rewrite Hs. exact Inv.
  - unfold Legacy.run_event. simpl.
    destruct (loadAlerts_chat o st) as [_ [Hs _]]. rewrite Hs. exact Inv.
Qed.

End LegacyInvariants.



(** Every [/chat/query] request the plain page ever sends asks for
    sources, carries a query that is not empty and has no white space
    at either end, and names a payer or rule type filter only by a
    non-empty string (an unset filter goes out as [null]). *)
Theorem legacy_requests_well_formed
    (sid : option jsstring) (stats : Legacy.stats_html) (alerts : Legacy.alerts_html)
    (events : list Legacy.event) :
  Forall well_formed_request
    (Legacy.sent (fst (Legacy.run events (Legacy.loaded sid stats alerts) []))).
Proof.
  apply (legacy_run_invariant (fun st => Forall well_formed_request (Legacy.sent st))).
  - intros e st. apply well_formed_step.
  - constructor.
Qed.

(** When a pending request settles on the plain page, with whatever
    outcome, exactly one bot message is added, at the end of the chat;
    the user and bot messages that were there are all kept, in their
    order. *)
Theorem settled_request_adds_one_bot_message
    (k : nat) (o : fetch_outcome chat_body) (st : Legacy.state) :
  Legacy.is_pending k st = true ->
  exists before content items,
    Legacy.chatMessages (snd (Legacy.run_event st (Legacy.chat_settled k o)))
    = before ++ [Legacy.message Legacy.bot content items]
    /\ filter is_bot_or_user before = filter is_bot_or_user (Legacy.chatMessages st).
Proof.
  intro Ek. rewrite (chat_settled_pending k o st Ek).
  set (st1 := Legacy.set_network _ _ st).
  destruct (sendMessage_resume_chat o st1) as [_ [_ [content [items Hc]]]].
  subst st1. simpl in Hc.
  destruct Hc as [Hc|Hc]; eexists; exists content, items; (split; [exact Hc|]);
    rewrite (filter_remove_first_other _ _ welcome_not_message);
    rewrite !(filter_remove_first_other _ _ typing_not_message); reflexivity.
Qed.

Lemma settled_request_adds_one_bot_message_witness :
  Legacy.is_pending 0
    (fst (Legacy.run [Legacy.type_input (lit "hi"); Legacy.click_send] page0 [])) = true
  /\ exists before content items,
       Legacy.chatMessages
         (snd (Legacy.run_event
                 (fst (Legacy.run [Legacy.type_input (lit "hi"); Legacy.click_send] page0 []))
                 (Legacy.chat_settled 0 (not_json 502))))
       = before ++ [Legacy.message Legacy.bot content items]
       /\ filter is_bot_or_user before
          = filter is_bot_or_user
              (Legacy.chatMessages
                 (fst (Legacy.run [Legacy.type_input (lit "hi"); Legacy.click_send] page0 []))).
Proof.
  split; [reflexivity|].
  apply (settled_request_adds_one_bot_message 0 (not_json 502)
           (fst (Legacy.run [Legacy.type_input (lit "hi"); Legacy.click_send] page0 []))).
  reflexivity.
Defined.

(* ------------------------------------------------------------------ *)
(** * Further properties of the scores *)

Section Percent.



End Percent.





(* ------------------------------------------------------------------ *)
(** * Further properties of the React components *)

Section ReactRuns.

Lemma react_run_invariant (p : React.props) (P : React.state -> Prop) :
  (forall e st, P st -> P (React.step p st e)) ->
  forall events st, P st -> P (React.run p events st).
Proof.
  intros Hstep events. unfold React.run.
  induction events as [|e rest IH]; intros st HP; simpl.
  - exact HP.
  - apply IH. apply Hstep. exact HP.
Qed.

Lemma examples_well_formed :
  Forall (fun e => e <> [] /\ trim e = e) React.examples.
Proof.
  repeat constructor; try discriminate; vm_compute; reflexivity.
Qed.

Lemma handleSend_request (p : React.props) (q : jsstring) (now : Z) (st : React.state) :
  React.sent (React.handleSend p q now st)
  = React.sent st
    ++ [ {| query := q; session_id := Some (React.sessionId st);
            req_payer_name := string_or_absent (React.payerFilter p);
            req_rule_type := string_or_absent (React.ruleTypeFilter p);
            include_sources := true |} ].
Proof. reflexivity. Qed.

Lemma react_requests_step (p : React.props) (e : React.event) (st : React.state) :
  Forall (fun r => well_formed_request r /\ session_id r = Some (React.sessionId st))
         (React.sent st) ->
  Forall (fun r => well_formed_request r
                   /\ session_id r = Some (React.sessionId (React.step p st e)))
         (React.sent (React.step p st e)).
Proof.
  intro Inv. rewrite react_step_sessionId.
  assert (Hsend : forall q now, q <> [] -> trim q = q ->
            Forall (fun r => well_formed_request r /\ session_id r = Some (React.sessionId st))
                   (React.sent (React.handleSend p q now st))).
  { intros q now Hne Htrim. rewrite handleSend_request.
    apply Forall_app. split; [exact Inv|]. constructor; [|constructor].
    unfold well_formed_request. simpl.
    repeat split; try assumption; apply string_or_absent_not_empty. }
  destruct e as [text|now|i now|k o now]; simpl.
  - destruct (React.isPending st); exact Inv.
  - unfold React.handleSubmit.
    destruct (trim (React.input st)) as [|c r] eqn:E; simpl; [exact Inv|].
    destruct (React.isPending st); simpl; [exact Inv|].
    apply (Hsend (c :: r) now); [discriminate|].
    rewrite <- E. apply trim_idempotent.
  - destruct (React.messages st) as [|m ms] eqn:Em; [|exact Inv].
    destruct (nth_error React.examples i) as [example|] eqn:En; [|exact Inv].
    pose proof examples_well_formed as Hex. rewrite Forall_forall in Hex.
    destruct (Hex example (nth_error_In _ _ En)) as [Hne Htrim].
    pose proof (Hsend example now Hne Htrim) as H.
    unfold React.handleSend, React.mutate, React.setMessages in *. simpl in *.
    rewrite Em in H. exact H.
  - destruct (React.is_pending k st); [|exact Inv].
    destruct (React.chatApi_query o); exact Inv.
Qed.

Lemma react_messages_step (p : React.props) (e : React.event) (st : React.state) :
  exists added, React.messages (React.step p st e) = React.messages st ++ added.
Proof.
  destruct e as [text|now|i now|k o now]; simpl.
  - exists []. rewrite app_nil_r. destruct (React.isPending st); reflexivity.
  - unfold React.handleSubmit.
    destruct (truthy_string (trim (React.input st)) && negb (React.isPending st) && negb false).
    + eexists. reflexivity.
    + exists []. rewrite app_nil_r. reflexivity.
  - destruct (React.messages st) as [|m ms] eqn:Em.
    + destruct (nth_error React.examples i) as [example|].
      * eexists. simpl. rewrite Em. reflexivity.
      * exists []. rewrite Em. reflexivity.
    + exists []. rewrite Em, app_nil_r. reflexivity.
  - destruct (React.is_pending k st).
    + destruct (React.chatApi_query o); eexists; reflexivity.
    + exists []. rewrite app_nil_r. reflexivity.
Qed.

(** The invariant of [ChatInterface] together with the flag of the
    mutation: nothing pending, flag down. *)
Lemma one_in_flight_flag_step (p : React.props) (e : React.event) (st : React.state) :
  one_in_flight st /\ (React.pending st = [] -> React.isPending st = false) ->
  one_in_flight (React.step p st e)
  /\ (React.pending (React.step p st e) = [] -> React.isPending (React.step p st e) = false).
Proof.
  intros [Inv Hflag]. split; [apply one_in_flight_step; exact Inv|].
  destruct e as [text|now|i now|k o now]; simpl.
  - destruct (React.isPending st) eqn:Ep; simpl; rewrite ?Ep; [exact Hflag | reflexivity].
  - unfold React.handleSubmit.
    destruct (truthy_string (trim (React.input st)) && negb (React.isPending st) && negb false);
      simpl; [|exact Hflag].
    intro H. destruct (React.pending st); discriminate H.
  - destruct (React.messages st) as [|m ms]; [|exact Hflag].
    destruct (nth_error React.examples i) as [example|]; [|exact Hflag].
    simpl. intro H. destruct (React.pending st); discriminate H.
  - destruct (React.is_pending k st) eqn:Ek; [|exact Hflag].
    assert (Hlast : Nat.eqb (S k) (List.length (React.sent st)) = true).
    { destruct Inv as [[Hp _]|[Hp [_ [Hs _]]]];
        unfold React.is_pending in Ek; rewrite Hp in Ek; simpl in Ek; [discriminate Ek|].
      rewrite orb_false_r in Ek. apply Nat.eqb_eq in Ek. subst k.
      apply Nat.eqb_eq. destruct (React.sent st); [contradiction|reflexivity]. }
    destruct (React.chatApi_query o);
      unfold React.onSuccess, React.onError, React.log_error, React.setMessages, React.settle;
      cbn [React.isPending React.pending]; rewrite Hlast; reflexivity.
Qed.

Lemma react_sessionId_run_mounted (p : React.props) (events : list React.event)
    (sid : jsstring) :
  React.sessionId (React.run p events (React.mounted sid)) = sid.
Proof.
  apply (react_run_invariant p (fun st => React.sessionId st = sid)).
  - intros e st H. rewrite react_step_sessionId. exact H.
  - reflexivity.
Qed.

Lemma ordered_waiting_not_nil (l : list React.role) : ordered l true -> l <> [].
Proof.
  intros H E. subst l. apply ordered_nil_inv in H. discriminate H.
Qed.

End ReactRuns.

(** Every request [ChatInterface] ever sends asks for sources, carries
    a query that is not empty and has no white space at either end
    (typed or taken from the example buttons), names a filter only by a
    non-empty string, and carries the session id the component was
    mounted with. *)
Theorem react_requests_well_formed (p : React.props) (events : list React.event)
    (sid : jsstring) :
  Forall (fun r => well_formed_request r /\ session_id r = Some sid)
         (React.sent (React.run p events (React.mounted sid))).
Proof.
  pose proof (react_run_invariant p
    (fun st => Forall (fun r => well_formed_request r
                                /\ session_id r = Some (React.sessionId st))
                      (React.sent st))
    (react_requests_step p) events (React.mounted sid)) as H.
  cbn beta in H. rewrite react_sessionId_run_mounted in H.
  apply H. constructor.
Qed.

(** The conversation of [ChatInterface] only grows: after any run the
    messages are the messages from before, unchanged and in their
    order, followed by the new ones. *)
Theorem react_messages_append_only (p : React.props) (events : list React.event)
    (st : React.state) :
  exists added, React.messages (React.run p events st) = React.messages st ++ added.
Proof.
  unfold React.run. revert st.
  induction events as [|e rest IH]; intro st; simpl.
  - exists []. rewrite app_nil_r. reflexivity.
  - destruct (IH (React.step p st e)) as [more Hmore].
    destruct (react_messages_step p e st) as [added Hadded].
    exists (added ++ more). rewrite Hmore, Hadded, app_assoc. reflexivity.
Qed.

(** In every state [ChatInterface] can reach, the typing indicator is
    on screen exactly while a request is pending, the textarea and the
    send button are disabled exactly then (the button also when the
    text is blank), and the welcome screen with its example buttons is
    not shown while a request is pending. *)
Theorem react_view_follows_pending (p : React.props) (events : list React.event)
    (sid : jsstring) :
  let st := React.run p events (React.mounted sid) in
  (View.shows_typing st = true <-> React.pending st <> [])
  /\ (View.textarea_disabled st = true <-> React.pending st <> [])
  /\ (View.send_disabled st = true
      <-> React.pending st <> [] \/ blank (React.input st))
  /\ (React.pending st <> [] -> View.shows_welcome st = false).
Proof.
  pose proof (react_run_invariant p
    (fun st => one_in_flight st /\ (React.pending st = [] -> React.isPending st = false))
    (one_in_flight_flag_step p) events (React.mounted sid)) as H.
  cbn beta in H.
  destruct H as [Inv Hflag].
  { split; [left; split; [reflexivity | constructor] | reflexivity]. }
  set (st := React.run p events (React.mounted sid)) in *. cbn zeta.
  assert (Hpend : React.isPending st = true <-> React.pending st <> []).
  { split.
    - intros Hp Hnil. rewrite (Hflag Hnil) in Hp. discriminate Hp.
    - intro Hne. destruct Inv as [[Hp _]|[_ [Hp _]]]; [contradiction | exact Hp]. }
  assert (Hmsgs : React.pending st <> [] -> React.messages st <> []).
  { intros Hne. destruct Inv as [[Hp _]|[_ [_ [_ Ho]]]]; [contradiction|].
    intro E. apply (ordered_waiting_not_nil _ Ho). rewrite E. reflexivity. }
  assert (Hwelcome : React.pending st <> [] -> View.shows_welcome st = false).
  { intro Hne. unfold View.shows_welcome.
    destruct (React.messages st) eqn:E; [exfalso; exact (Hmsgs Hne eq_refl) | reflexivity]. }
  repeat split.
  - unfold View.shows_typing. intro H. apply andb_prop in H. apply Hpend. exact (proj2 H).
  - intro Hne. unfold View.shows_typing.
    rewrite (Hwelcome Hne), (proj2 Hpend Hne). reflexivity.
  - unfold View.textarea_disabled. simpl. apply Hpend.
  - unfold View.textarea_disabled. simpl. apply Hpend.
  - unfold View.send_disabled. rewrite orb_false_r. intro H.
    apply orb_prop in H. destruct H as [H|H].
    + right. apply trim_empty_blank.
      destruct (trim (React.input st)); [reflexivity | discriminate H].
    + left. apply Hpend. exact H.
  - unfold View.send_disabled. rewrite orb_false_r. intros [Hne|Hb].
    + rewrite (proj2 Hpend Hne). apply orb_true_r.
    + rewrite (trim_blank _ Hb). reflexivity.
  - exact Hwelcome.
Qed.

Lemma send_button_disabled_submit (p : React.props) (now : Z) (st : React.state) :
  View.send_disabled st = true -> React.handleSubmit p now st = st.
Proof.
  unfold View.send_disabled, React.handleSubmit.
  destruct (truthy_string (trim (React.input st))); simpl; [|reflexivity].
  destruct (React.isPending st); simpl; [reflexivity | discriminate].
Qed.

(** [InputBar]: the send button is disabled exactly when submitting
    would do nothing, whatever the state. *)
Theorem send_button_matches_submit (p : React.props) (now : Z) (st : React.state) :
  View.send_disabled st = true <-> React.handleSubmit p now st = st.
Proof.
  unfold View.send_disabled, React.handleSubmit.
  destruct (truthy_string (trim (React.input st))); simpl;
    [|split; reflexivity].
  destruct (React.isPending st); simpl; [split; reflexivity|].
  split; [discriminate|].
  intro H. exfalso.
  assert (Hlen : List.length (React.sent (React.setInput []
                   (React.handleSend p (trim (React.input st)) now st)))
                 = List.length (React.sent st)) by (rewrite H; reflexivity).
  simpl in Hlen. rewrite length_app in Hlen. simpl in Hlen. lia.
Qed.

(** [InputBar]: a key press sends nothing unless it is Enter without
    Shift; and then it does what the send button does. *)
Theorem keydown_sends_only_on_enter (p : React.props) (key : jsstring)
    (shiftKey : bool) (now : Z) (st : React.state) :
  (View.handleKeyDown p key shiftKey now st <> st ->
     key = lit "Enter" /\ shiftKey = false /\ View.send_disabled st = false)
  /\ (key = lit "Enter" -> shiftKey = false ->
        View.handleKeyDown p key shiftKey now st = React.step p st (React.submit now)).
Proof.
  unfold View.handleKeyDown, jsstring_eqb. split.
  - destruct (list_eq_dec N.eq_dec key (lit "Enter")) as [E|E]; simpl.
    + destruct shiftKey; simpl; [intro H; contradiction|].
      intro H. repeat split; [exact E|].
      destruct (View.send_disabled st) eqn:Ed; [|reflexivity].
      exfalso. apply H. apply (send_button_disabled_submit p now st Ed).
    + intro H. contradiction.
  - intros -> ->. simpl.
    destruct (list_eq_dec N.eq_dec (lit "Enter") (lit "Enter")) as [E|E];
      [reflexivity | contradiction].
Qed.

(** [MessageBubble]: when the rule ids of the sources of a message are
    distinct and none is 0, the cards get distinct keys, the rule ids. *)
Theorem card_keys_distinct (sources : list Source) :
  Forall (fun s => rule_id s <> 0) sources ->
  NoDup (map rule_id sources) ->
  View.keys_from 0 sources = map rule_id sources
  /\ NoDup (View.keys_from 0 sources).
Proof.
  intros Hnz Hnd.
  assert (H : forall i, View.keys_from i sources = map rule_id sources).
  { induction Hnz as [|s r Hs _ IH]; intro i; simpl.
    - reflexivity.
    - inversion Hnd; subst. rewrite IH by assumption.
      unfold View.card_key. destruct (rule_id s =? 0) eqn:E; [|reflexivity].
      apply Z.eqb_eq in E. contradiction. }
  rewrite H. split; [reflexivity | exact Hnd].
Qed.

Lemma card_keys_distinct_witness :
  View.keys_from 0 [aetna_092; combined_070; similarity_095] = [1; 2; 3]
  /\ NoDup (View.keys_from 0 [aetna_092; combined_070; similarity_095]).
Proof.
  apply (card_keys_distinct [aetna_092; combined_070; similarity_095]).
  - repeat constructor; discriminate.
  - repeat constructor; simpl; intuition discriminate.
Defined.

(** [SourceCard]: the rule type is shown with every underscore turned
    into a space and nothing else changed: same length, no underscore
    left, and the text itself when it had none. *)
Theorem rule_type_shown_without_underscores (s : Source) :
  List.length (View.shown_rule_type s) = List.length (rule_type s)
  /\ ~ In 95%N (View.shown_rule_type s)
  /\ (forall i c, nth_error (rule_type s) i = Some c -> c <> 95%N ->
                  nth_error (View.shown_rule_type s) i = Some c)
  /\ (forall i, nth_error (rule_type s) i = Some 95%N ->
                nth_error (View.shown_rule_type s) i = Some 32%N).
Proof.
  unfold View.shown_rule_type. repeat split.
  - apply length_map.
  - intro H. apply in_map_iff in H. destruct H as [c [Hc _]].
    destruct (c =? 95)%N eqn:E; [discriminate Hc|].
    subst c. rewrite N.eqb_refl in E. discriminate E.
  - intros i c Hi Hc. rewrite nth_error_map, Hi. simpl.
    destruct (c =? 95)%N eqn:E; [|reflexivity].
    apply N.eqb_eq in E. contradiction.
  - intros i Hi. rewrite nth_error_map, Hi. reflexivity.
Qed.

(* ------------------------------------------------------------------ *)
(** * Further properties of the rest of the plain page *)

Section EscapeHtml.

(** What one code unit of the text becomes. *)
Lemma escaped_unit_cases (c : N) :
  let u := Page.replace_newlines (Page.escape_text_unit c) in
  (c = 38%N /\ u = lit "&amp;")
  \/ (c = 160%N /\ u = lit "&nbsp;")
  \/ (c = 60%N /\ u = lit "&lt;")
  \/ (c = 62%N /\ u = lit "&gt;")
  \/ (c = 10%N /\ u = lit "<br>")
  \/ (u = [c] /\ c <> 38%N /\ c <> 160%N /\ c <> 60%N /\ c <> 62%N /\ c <> 10%N).
Proof.
  unfold Page.escape_text_unit.
  destruct (c =? 38)%N eqn:E1; [apply N.eqb_eq in E1; subst; left; split; reflexivity|].
  destruct (c =? 160)%N eqn:E2;
    [apply N.eqb_eq in E2; subst; right; left; split; reflexivity|].
  destruct (c =? 60)%N eqn:E3;
    [apply N.eqb_eq in E3; subst; do 2 right; left; split; reflexivity|].
  destruct (c =? 62)%N eqn:E4;
    [apply N.eqb_eq in E4; subst; do 3 right; left; split; reflexivity|].
  simpl. rewrite app_nil_r.
  destruct (c =? 10)%N eqn:E5;
    [apply N.eqb_eq in E5; subst; do 4 right; left; split; reflexivity|].
  do 5 right. apply N.eqb_neq in E1, E2, E3, E4, E5. repeat split; assumption.
Qed.

Lemma escapeHtml_cons (c : N) (r : jsstring) :
  Page.escapeHtml (Some (c :: r))
  = Page.replace_newlines (Page.escape_text_unit c) ++ Page.escapeHtml (Some r).
Proof.
  unfold Page.escapeHtml, Page.replace_newlines. simpl.
  apply flat_map_app.
Qed.

Lemma escapeHtml_unit_counts (c : N) :
  let u := Page.replace_newlines (Page.escape_text_unit c) in
  count_occ N.eq_dec u 60%N = (if (c =? 10)%N then 1 else 0)%nat
  /\ count_occ N.eq_dec u 62%N = (if (c =? 10)%N then 1 else 0)%nat
  /\ count_occ N.eq_dec u 10%N = 0%nat.
Proof.
  destruct (escaped_unit_cases c) as [[-> ->]|[[-> ->]|[[-> ->]|[[-> ->]|[[-> ->]|H]]]]];
    try (repeat split; reflexivity).
  destruct H as [-> [_ [_ [H60 [H62 H10]]]]].
  apply N.eqb_neq in H10. rewrite H10. simpl.
  destruct (N.eq_dec c 60); [apply N.eqb_neq in H60; subst; discriminate H60|].
  destruct (N.eq_dec c 62); [apply N.eqb_neq in H62; subst; discriminate H62|].
  destruct (N.eq_dec c 10); [subst; discriminate H10|].
  repeat split.
Qed.

End EscapeHtml.

(** [escapeHtml] leaves no markup of the text standing: the only [<]
    and [>] of its result are those of the [<br>] it writes, one pair
    per line feed of the text, and no line feed is left. *)
Theorem escapeHtml_only_br_tags (text : jsstring) :
  count_occ N.eq_dec (Page.escapeHtml (Some text)) 60%N = count_occ N.eq_dec text 10%N
  /\ count_occ N.eq_dec (Page.escapeHtml (Some text)) 62%N = count_occ N.eq_dec text 10%N
  /\ count_occ N.eq_dec (Page.escapeHtml (Some text)) 10%N = 0%nat.
Proof.
  induction text as [|c r [IH60 [IH62 IH10]]].
  - repeat split.
  - rewrite escapeHtml_cons, !count_occ_app, IH60, IH62, IH10.
    destruct (escapeHtml_unit_counts c) as [H60 [H62 H10]].
    cbn zeta in H60, H62, H10. rewrite H60, H62, H10.
    simpl (count_occ N.eq_dec (c :: r) 10%N).
    destruct (N.eq_dec c 10) as [E|E].
    + subst c. simpl. repeat split.
    + apply N.eqb_neq in E. rewrite E. simpl. repeat split.
Qed.

(** [escapeHtml] loses nothing: two texts with the same escaped form
    are the same text. *)
Theorem escapeHtml_injective (a b : jsstring) :
  Page.escapeHtml (Some a) = Page.escapeHtml (Some b) -> a = b.
Proof.
  revert b. induction a as [|c r IH]; intros [|d s] H.
  - reflexivity.
  - exfalso. rewrite escapeHtml_cons in H.
    destruct (escaped_unit_cases d) as [[_ E]|[[_ E]|[[_ E]|[[_ E]|[[_ E]|[E _]]]]]];
      cbn zeta in E; rewrite E in H; discriminate H.
  - exfalso. rewrite escapeHtml_cons in H.
    destruct (escaped_unit_cases c) as [[_ E]|[[_ E]|[[_ E]|[[_ E]|[[_ E]|[E _]]]]]];
      cbn zeta in E; rewrite E in H; discriminate H.
  - rewrite !escapeHtml_cons in H.
    assert (Hboth : c = d /\ Page.escapeHtml (Some r) = Page.escapeHtml (Some s)).
    { destruct (escaped_unit_cases c)
        as [[Hc Ec]|[[Hc Ec]|[[Hc Ec]|[[Hc Ec]|[[Hc Ec]|[Ec Hc]]]]]];
      destruct (escaped_unit_cases d)
        as [[Hd Ed]|[[Hd Ed]|[[Hd Ed]|[[Hd Ed]|[[Hd Ed]|[Ed Hd]]]]]];
      cbn zeta in Ec, Ed; rewrite Ec, Ed in H;
      first
        [ split; [subst; reflexivity | exact (app_inv_head _ _ _ H)]
        | simpl in H; discriminate H
        | simpl in H; injection H as Hhd Htl;
          first [ split; [exact Hhd | exact Htl]
                | exfalso; subst; intuition congruence ] ]. }
    destruct Hboth as [-> Hrest]. f_equal. apply IH. exact Hrest.
Qed.

Lemma escapeHtml_injective_witness :
  Page.escapeHtml (Some (lit "a<b")) = lit "a&lt;b"
  /\ lit "a<b" = lit "a<b".
Proof.
  split; [reflexivity|].
  apply (escapeHtml_injective (lit "a<b") (lit "a<b")). reflexivity.
Defined.

Section PageLoads.

Lemma loadPayers_cases (o : fetch_outcome Page.payers_body) (pg : Page.page) :
  fst (Page.loadPayers o pg) = Legacy.normal tt
  /\ Page.statusText (snd (Page.loadPayers o pg)) = Page.statusText pg
  /\ Legacy.sessionId (Page.core (snd (Page.loadPayers o pg)))
     = Legacy.sessionId (Page.core pg).
Proof.
  destruct o as [|status|status [[|a l]|]]; repeat split.
Qed.

Lemma run_load_keeps (l : Page.load) (pg : Page.page) :
  fst (Page.run_load l pg) = Legacy.normal tt
  /\ Page.statusText (snd (Page.run_load l pg)) = Page.statusText pg
  /\ Legacy.sessionId (Page.core (snd (Page.run_load l pg)))
     = Legacy.sessionId (Page.core pg).
Proof.
  destruct l as [o|o|o]; simpl.
  - unfold Page.lift.
    pose proof (loadStats_completes o (Page.core pg)) as Hn.
    destruct (loadStats_chat o (Page.core pg)) as [_ [_ [_ Hs]]].
    destruct (Legacy.loadStats o (Page.core pg)) as [c st']. simpl in *.
    repeat split; assumption.
  - apply loadPayers_cases.
  - unfold Page.lift.
    pose proof (loadAlerts_completes o (Page.core pg)) as Hn.
    destruct (loadAlerts_chat o (Page.core pg)) as [_ [_ [_ Hs]]].
    destruct (Legacy.loadAlerts o (Page.core pg)) as [c st']. simpl in *.
    repeat split; assumption.
Qed.

Lemma all_loads_keeps (arrivals : list Page.load) :
  forall pg,
    fst (Page.all_loads arrivals pg) = Legacy.normal tt
    /\ Page.statusText (snd (Page.all_loads arrivals pg)) = Page.statusText pg
    /\ Legacy.sessionId (Page.core (snd (Page.all_loads arrivals pg)))
       = Legacy.sessionId (Page.core pg).
Proof.
  induction arrivals as [|l rest IH]; intro pg; simpl.
  - repeat split.
  - unfold Page.bind.
    destruct (run_load_keeps l pg) as [Hn [Ht Hs]].
    destruct (Page.run_load l pg) as [c pg1]. simpl in *. subst c.
    destruct (IH pg1) as [Hn' [Ht' Hs']].
    repeat split; congruence.
Qed.

End PageLoads.

(** [loadPayers] never throws.  It rewrites the payer filter only when
    a non-empty array arrives, and then the filter lists the names of
    exactly the payers of the side bar, in their order; an empty array
    or a failure replaces the side bar by a text and leaves the filter
    as it was. *)
Theorem payer_filter_follows_side_bar (o : fetch_outcome Page.payers_body)
    (pg : Page.page) :
  let pg' := snd (Page.loadPayers o pg) in
  fst (Page.loadPayers o pg) = Legacy.normal tt
  /\ (forall items, Page.payersList pg' = Page.payer_items items ->
        items <> []
        /\ Page.payerOptions pg' = Page.payer_options (map Page.name items))
  /\ ((exists text, Page.payersList pg' = Page.payers_loading text) ->
        Page.payerOptions pg' = Page.payerOptions pg)
  /\ (fetch_fails o = true ->
        Page.payersList pg' = Page.payers_loading "Error loading payers"
        /\ Page.currentPayers pg' = Page.currentPayers pg).
Proof.
  destruct o as [|status|status [[|a l]|]]; simpl; repeat split;
    try discriminate;
    try (intros items H; discriminate H);
    try (intros items H; injection H as <-; discriminate);
    try (intros items H; injection H as <-; reflexivity);
    try (intros [text H]; discriminate H);
    try (injection H as <-; solve [discriminate | reflexivity]).
Qed.

(** [initializeApp] when the health check throws (no answer, a body
    that is not JSON, or [null]): none of the loads runs, no session id
    is generated, the status line shows the failure text, the error is
    logged, and nothing else on the page changes. *)
Theorem initializeApp_without_health (h : fetch_outcome Page.health_body)
    (arrivals : list Page.load) (now suffix : jsstring) (pg : Page.page) :
  health_fails h = true ->
  exists e,
    Page.initializeApp h arrivals now suffix pg
    = (Legacy.normal tt,
       Page.set_statusText
         (lit "Failed to connect to the API. Make sure the server is running.")
         (Page.set_core
            (Legacy.set_console
               (Legacy.console (Page.core pg)
                  ++ [Legacy.console_error "Initialization error:" e])
               (Page.core pg))
            pg)).
Proof.
  destruct h as [|status|status [|s]]; intro H; try discriminate H.
  - exists NetworkError. reflexivity.
  - exists SyntaxError. reflexivity.
  - exists TypeError. reflexivity.
Qed.

Lemma initializeApp_without_health_witness :
  Page.statusText
    (snd (Page.initializeApp (not_json 502)
            [Page.stats_load rejected; Page.alerts_load rejected; Page.payers_load rejected]
            (lit "1700000000000") (lit "k3j9x0q2a")
            (Page.fresh (Legacy.stats_markup []) (Legacy.alerts_markup [])
               (Page.payers_markup []) (Page.options_markup []) (lit "Connecting..."))))
  = lit "Failed to connect to the API. Make sure the server is running.".
Proof.
  destruct (initializeApp_without_health (not_json 502)
              [Page.stats_load rejected; Page.alerts_load rejected; Page.payers_load rejected]
              (lit "1700000000000") (lit "k3j9x0q2a")
              (Page.fresh (Legacy.stats_markup []) (Legacy.alerts_markup [])
                 (Page.payers_markup []) (Page.options_markup []) (lit "Connecting..."))
              eq_refl) as [e H].
  rewrite H. reflexivity.
Defined.

(** [initializeApp] when the health check answers with a JSON value
    other than [null], healthy or not: whatever the three loads do and
    in whatever order they arrive, it completes normally, the status
    line reads "Connected" when the status is the string "healthy" and
    "Disconnected" otherwise, and the session id is the generated one,
    a non-empty string. *)
Theorem initializeApp_with_health (h : fetch_outcome Page.health_body)
    (arrivals : list Page.load) (now suffix : jsstring) (pg : Page.page) :
  health_fails h = false ->
  let pg' := snd (Page.initializeApp h arrivals now suffix pg) in
  fst (Page.initializeApp h arrivals now suffix pg) = Legacy.normal tt
  /\ Legacy.sessionId (Page.core pg') = Some (Legacy.generateSessionId now suffix)
  /\ truthy_opt_string (Legacy.sessionId (Page.core pg')) = true
  /\ (Page.statusText pg' = lit "Connected"
      <-> exists status, h = json status (Page.health_object (Some (lit "healthy"))))
  /\ (Page.statusText pg' = lit "Connected" \/ Page.statusText pg' = lit "Disconnected").
Proof.
  destruct h as [|status|status [|s]]; intro H; try discriminate H. clear H.
  assert (Hh : match s with
               | Some s0 => jsstring_eqb s0 (lit "healthy")
               | None => false
               end = true <-> s = Some (lit "healthy")).
  { destruct s as [s0|]; [|split; discriminate].
    unfold jsstring_eqb. destruct (list_eq_dec N.eq_dec s0 (lit "healthy")) as [E|E].
    - subst. split; reflexivity.
    - split; [discriminate|]. intro H. injection H as H. contradiction. }
  unfold Page.initializeApp, Page.try_catch, Page.checkHealth, Page.bind. simpl.
  match goal with
  | |- context [if ?b then _ else _] => destruct b eqn:Eh
  end; simpl;
    match goal with
    | |- context [Page.all_loads arrivals ?pg1] =>
        destruct (all_loads_keeps arrivals pg1) as [Hn [Ht Hs]];
        destruct (Page.all_loads arrivals pg1) as [c pg2]
    end; simpl in *; subst c; simpl.
  - repeat split.
    + intros _. exists status. f_equal. f_equal. apply Hh. reflexivity.
    + intros _. exact Ht.
    + left. exact Ht.
  - repeat split.
    + intro H. rewrite Ht in H. discriminate H.
    + intros [status' H]. injection H as _ H.
      apply Hh in H. discriminate H.
    + right. exact Ht.
Qed.

Lemma initializeApp_with_health_witness :
  Legacy.sessionId
    (Page.core
       (snd (Page.initializeApp (json 200 (Page.health_object (Some (lit "degraded"))))
               [Page.alerts_load rejected; Page.payers_load (not_json 500);
                Page.stats_load rejected]
               (lit "1700000000000") (lit "k3j9x0q2a")
               (Page.fresh (Legacy.stats_markup []) (Legacy.alerts_markup [])
                  (Page.payers_markup []) (Page.options_markup []) (lit "Connecting...")))))
  = Some (lit "session_1700000000000_k3j9x0q2a").
Proof.
  destruct (initializeApp_with_health (json 200 (Page.health_object (Some (lit "degraded"))))
              [Page.alerts_load rejected; Page.payers_load (not_json 500);
               Page.stats_load rejected]
              (lit "1700000000000") (lit "k3j9x0q2a")
              (Page.fresh (Legacy.stats_markup []) (Legacy.alerts_markup [])
                 (Page.payers_markup []) (Page.options_markup []) (lit "Connecting..."))
              eq_refl) as [_ [H _]].
  rewrite H. reflexivity.
Defined.

(* ------------------------------------------------------------------ *)
(** * How the operations of the plain page compose *)

(** When the health check throws, the page has no session id: the first
    query goes out with [session_id: null], and the session id of the
    first parsed answer that carries a non-empty one becomes the page's
    session id. *)
Theorem query_after_failed_init (h : fetch_outcome Page.health_body)
    (arrivals : list Page.load) (now suffix : jsstring)
    (stats : Legacy.stats_html) (alerts : Legacy.alerts_html)
    (payers : Page.payers_html) (options : Page.options_html) (status text : jsstring) :
  health_fails h = true ->
  trim text <> [] ->
  let pg := snd (Page.initializeApp h arrivals now suffix
                   (Page.fresh stats alerts payers options status)) in
  let st := fst (Legacy.run [Legacy.type_input text; Legacy.click_send] (Page.core pg) []) in
  map session_id (Legacy.sent st) = [None]
  /\ map query (Legacy.sent st) = [trim text]
  /\ Legacy.pending st = [0%nat]
  /\ forall http d,
       truthy_opt_string (resp_session_id d) = true ->
       Legacy.sessionId
         (snd (Legacy.run_event st (Legacy.chat_settled 0 (json http (body_object d)))))
       = resp_session_id d.
Proof.
  intros Hh Hne.
  assert (Hcore : forall pg0,
            Legacy.sessionId (Page.core (snd (Page.initializeApp h arrivals now suffix pg0)))
            = Legacy.sessionId (Page.core pg0)
            /\ Legacy.sent (Page.core (snd (Page.initializeApp h arrivals now suffix pg0)))
               = Legacy.sent (Page.core pg0)
            /\ Legacy.pending (Page.core (snd (Page.initializeApp h arrivals now suffix pg0)))
               = Legacy.pending (Page.core pg0)).
  { intro pg0. destruct h as [|http|http [|s]]; try discriminate Hh; repeat split. }
  destruct (Hcore (Page.fresh stats alerts payers options status)) as [Hsid [Hsent Hpend]].
  set (pg := snd (Page.initializeApp h arrivals now suffix
                    (Page.fresh stats alerts payers options status))) in *.
  simpl in Hsid, Hsent, Hpend. cbn zeta.
  set (st0 := Legacy.set_chatInput text (Page.core pg)).
  assert (Hrun : fst (Legacy.run [Legacy.type_input text; Legacy.click_send] (Page.core pg) [])
                 = snd (Legacy.sendMessage st0)).
  { unfold Legacy.run.
    change (Legacy.run_event (Page.core pg) (Legacy.type_input text))
      with (Legacy.normal tt, st0).
    cbn iota.
    change (Legacy.run_event st0 Legacy.click_send) with (Legacy.sendMessage st0).
    pose proof (sendMessage_completes st0) as Hn.
    destruct (Legacy.sendMessage st0) as [[[]|e] st1]; simpl in *;
      [reflexivity | discriminate Hn]. }
  rewrite Hrun.
  destruct (sendMessage_sends st0 Hne) as [_ [Hs Hp]].
  subst st0. simpl in Hs, Hp. rewrite Hsid, Hsent in Hs. rewrite Hsent, Hpend in Hp.
  simpl in Hs, Hp.
  repeat split.
  - rewrite Hs. reflexivity.
  - rewrite Hs. reflexivity.
  - exact Hp.
  - intros http d Hd.
    rewrite chat_settled_pending
      by (unfold Legacy.is_pending; rewrite Hp; reflexivity).
    unfold Legacy.sendMessage_resume, Legacy.try_catch, Legacy.bind, Legacy.when.
    simpl. rewrite Hd. reflexivity.
Qed.

Lemma query_after_failed_init_witness :
  Legacy.sessionId
    (snd (Legacy.run_event
            (fst (Legacy.run [Legacy.type_input (lit " hi "); Legacy.click_send]
                    (Page.core
                       (snd (Page.initializeApp rejected [] (lit "17") (lit "abc")
                               (Page.fresh (Legacy.stats_markup []) (Legacy.alerts_markup [])
                                  (Page.payers_markup []) (Page.options_markup [])
                                  (lit "Connecting...")))))
                    []))
            (Legacy.chat_settled 0 (json 200 (body_object (answer "ok" (Some (lit "s1"))))))))
  = Some (lit "s1").
Proof.
  assert (Hne : trim (lit " hi ") <> []) by (vm_compute; discriminate).
  destruct (query_after_failed_init rejected [] (lit "17") (lit "abc")
              (Legacy.stats_markup []) (Legacy.alerts_markup [])
              (Page.payers_markup []) (Page.options_markup []) (lit "Connecting...")
              (lit " hi ") eq_refl Hne) as [_ [_ [_ H]]].
  exact (H 200 (answer "ok" (Some (lit "s1"))) eq_refl).
Defined.

(** [clearChat] while a request is pending does not call the request
    off.  When its answer arrives the cleared chat shows that answer
    alone, and the session id is the one of the answer when it carries
    a non-empty one, the freshly generated one otherwise. *)
Theorem late_answer_after_clear (st : Legacy.state) (k : nat)
    (now suffix : jsstring) (http : Z) (d : ChatQueryResponse) :
  Legacy.is_pending k st = true ->
  let st' := fst (Legacy.run [Legacy.click_clear now suffix;
                              Legacy.chat_settled k (json http (body_object d))] st []) in
  Legacy.chatMessages st'
  = [Legacy.message Legacy.bot (response d) (Legacy.message_sources (sources d))]
  /\ Legacy.sessionId st'
     = (if truthy_opt_string (resp_session_id d) then resp_session_id d
        else Some (Legacy.generateSessionId now suffix)).
Proof.
  intro Ek. cbn zeta. unfold Legacy.run.
  change (Legacy.run_event st (Legacy.click_clear now suffix))
    with (Legacy.normal tt,
          Legacy.set_sessionId (Some (Legacy.generateSessionId now suffix))
            (Legacy.set_chatMessages [Legacy.welcome_message] st)).
  cbn iota.
  rewrite chat_settled_pending by exact Ek.
  unfold Legacy.sendMessage_resume, Legacy.try_catch, Legacy.bind, Legacy.when. simpl.
  destruct (truthy_opt_string (resp_session_id d)); simpl; split; reflexivity.
Qed.

Lemma late_answer_after_clear_witness :
  Legacy.chatMessages
    (fst (Legacy.run [Legacy.click_clear (lit "18") (lit "xyz");
                      Legacy.chat_settled 0 (json 200 (body_object (answer "late" None)))]
            (fst (Legacy.run [Legacy.type_input (lit "hi"); Legacy.click_send] page0 []))
            []))
  = [Legacy.message Legacy.bot (Some (lit "late")) []].
Proof.
  destruct (late_answer_after_clear
              (fst (Legacy.run [Legacy.type_input (lit "hi"); Legacy.click_send] page0 []))
              0 (lit "18") (lit "xyz") 200 (answer "late" None) eq_refl) as [H _].
  exact H.
Defined.

(* ------------------------------------------------------------------ *)
(** * Instances of the lemmas on failures and session ids *)

Lemma failed_request_apologises_witness :
  exists e,
    Legacy.sendMessage_resume (not_json 502)
      (fst (Legacy.run [Legacy.type_input (lit "hi"); Legacy.click_send] page0 []))
    = (Legacy.normal tt,
       Legacy.set_chatMessages
         (Legacy.remove_first Legacy.is_welcome
            (Legacy.remove_first Legacy.is_typing
               (Legacy.chatMessages
                  (fst (Legacy.run [Legacy.type_input (lit "hi"); Legacy.click_send]
                          page0 []))))
          ++ [Legacy.message Legacy.bot (Some apology) []])
         (Legacy.set_console
            (Legacy.console
               (fst (Legacy.run [Legacy.type_input (lit "hi"); Legacy.click_send] page0 []))
             ++ [Legacy.console_error "Error sending message:" e])
            (fst (Legacy.run [Legacy.type_input (lit "hi"); Legacy.click_send] page0 [])))).
Proof.
  exact (failed_request_apologises (not_json 502)
           (fst (Legacy.run [Legacy.type_input (lit "hi"); Legacy.click_send] page0 []))
           eq_refl).
Defined.

Lemma legacy_adopts_session_id_witness :
  Legacy.sessionId
    (snd (Legacy.run_event
            (fst (Legacy.run [Legacy.type_input (lit "hi"); Legacy.click_send] page0 []))
            (Legacy.chat_settled 0 (json 200 (body_object (answer "ok" (Some (lit "s1"))))))))
  = Some (lit "s1").
Proof.
  exact (legacy_adopts_session_id 0 200 (answer "ok" (Some (lit "s1")))
           (fst (Legacy.run [Legacy.type_input (lit "hi"); Legacy.click_send] page0 []))
           eq_refl).
Defined.

Lemma react_failed_request_apologises_witness :
  React.isPending
    (React.step React.App_props
       (React.run React.App_props [React.change_input (lit "hi"); React.submit 10]
          (React.mounted (lit "session_1_abc")))
       (React.mutation_settled 0 (not_json 502) 20))
  = false.
Proof.
  assert (Hs : React.sent (React.run React.App_props
                             [React.change_input (lit "hi"); React.submit 10]
                             (React.mounted (lit "session_1_abc"))) <> [])
    by (vm_compute; discriminate).
  assert (Ho : @not_json ChatQueryResponse 502 = rejected
               \/ exists status, (status < 200 \/ 300 <= status)
                                 /\ (@not_json ChatQueryResponse 502 = not_json status
                                     \/ exists d : ChatQueryResponse,
                                          not_json 502 = json status d)).
  { right. exists 502. split; [right; lia | left; reflexivity]. }
  destruct (react_failed_request_apologises React.App_props
              (React.run React.App_props [React.change_input (lit "hi"); React.submit 10]
                 (React.mounted (lit "session_1_abc")))
              (not_json 502) 20 eq_refl Hs Ho)
    as [H _].
  exact H.
Defined.

(** The key listener of the plain page sends a request exactly when the
    key is Enter, Shift is not held, and the text is not blank; any
    other key press leaves the request log as it was. *)
Theorem legacy_keydown_sends (key : jsstring) (shiftKey : bool) (st : Legacy.state) :
  Legacy.sent (snd (Page.onKeydown key shiftKey st)) <> Legacy.sent st
  <-> key = lit "Enter" /\ shiftKey = false /\ ~ blank (Legacy.chatInput st).
Proof.
  unfold Page.onKeydown, jsstring_eqb.
  destruct (list_eq_dec N.eq_dec key (lit "Enter")) as [E|E]; simpl.
  - destruct shiftKey; simpl.
    + split; [intro H; contradiction | intros [_ [H _]]; discriminate H].
    + destruct (trim (Legacy.chatInput st)) as [|c r] eqn:Et.
      * rewrite (sendMessage_blank st Et). split; [intro H; contradiction|].
        intros [_ [_ H]]. exfalso. apply H. apply trim_empty_blank. exact Et.
      * assert (Hne : trim (Legacy.chatInput st) <> []) by (rewrite Et; discriminate).
        destruct (sendMessage_sends st Hne) as [_ [Hs _]].
        split.
        -- intros _. repeat split; [exact E|].
           intro Hb. apply Hne. apply trim_blank. exact Hb.
        -- intros _ H. rewrite Hs in H.
           apply (f_equal (@List.length _)) in H.
           rewrite length_app in H. simpl in H. lia.
  - split; [intro H; contradiction | intros [H _]; contradiction].
Qed.

(* ------------------------------------------------------------------ *)
(** * The percentage and the band, in double arithmetic *)

Section DoublePercent.





End DoublePercent.



(** The products at 0.595 and at 0.92, and what each front end shows:
    the double nearest to 0.595 times 100 is exactly 59.5, which both
    front ends round to 60. *)
Example percent_at_0595 :
  (exists v, Double.value (Double.score combined_0595) = Some v /\ (v == 119 # 2)%Q)
  /\ Double.matchScore combined_0595 = Double.int 60
  /\ Double.badgeClass (Double.matchScore combined_0595)
     = "bg-yellow-100 text-yellow-700"%string
  /\ Double.item_text combined_0595 = Double.digits false 60
  /\ Double.matchScore aetna_092 = Double.int 92
  /\ Double.badgeClass (Double.matchScore aetna_092) = "bg-green-100 text-green-700"%string
  /\ Double.item_text aetna_092 = Double.digits false 92.
Proof.
  split; [eexists; split; vm_compute; reflexivity|].
  repeat split; vm_compute; reflexivity.
Qed.
